(** * bqext: query construction, single-row execution, partition metadata and dedup

    A shallow embedding of package [bqext] (Dataset.ResultQuery,
    Dataset.QueryAndParse, Dataset.GetPartitionInfo, Dataset.DestinationQuery
    and Dataset.Dedup) together with the part of the Go runtime and of the
    BigQuery client library these functions touch.

    Layout:
    - [strings], [fmt]      the Go string helpers the package calls;
    - [Value], [reflect]    Go values behind an interface, and run-time kinds;
    - [bigquery]            the client library as the package sees it: query
                            configurations, row cursors, jobs, and a client
                            whose answers are a parameter of every theorem;
    - [Go]                  the state-and-panic monad the functions run in
                            (heap, service calls made, log lines written);
    - [bqext]               the package itself;
    - [bqutil], [bqfake]    the tag-driven parser with its single-row query,
                            and the counting transport;
    - [sample], [fixture], [legacy]
                            services to run the package against, the last
                            one evaluating the filter of the partition query;
    then the properties of all of them. *)

From Stdlib Require Import ZArith String Ascii List Bool Lia.
From stdpp Require Import base option list strings gmap.

Local Open Scope string_scope.
Local Open Scope list_scope.

(** ** Go strings *)

Module strings.

(** strings.HasPrefix: s starts with prefix (byte-wise). *)
Fixpoint HasPrefix (s prefix : string) {struct prefix} : bool :=
  match prefix with
  | EmptyString => true
  | String c prefix' =>
      match s with
      | EmptyString => false
      | String d s' => Ascii.eqb d c && HasPrefix s' prefix'
      end
  end.

(** strings.Contains: substr occurs somewhere within s. *)
Fixpoint Contains (s substr : string) : bool :=
  HasPrefix s substr
  || match s with
     | EmptyString => false
     | String _ s' => Contains s' substr
     end.

(** ASCII letters to lower case. *)
Definition toLower (c : ascii) : ascii :=
let n := nat_of_ascii c in
if (65 <=? n)%nat && (n <=? 90)%nat then ascii_of_nat (n + 32) else c.

(** strings.EqualFold on ASCII text: equal but for the case of letters. *)
Fixpoint EqualFold (s t : string) : bool :=
match s, t with
| EmptyString, EmptyString => true
| String c s', String d t' => Ascii.eqb (toLower c) (toLower d) && EqualFold s' t'
| _, _ => false
end.

End strings.

Module fmt.

Definition percent : ascii := ascii_of_nat 37.
Definition verb_s : ascii := ascii_of_nat 115.

(** fmt.Sprintf restricted to what the package uses: the verb %s applied
    to string operands.  A verb with no operand left prints the marker
    the Go runtime prints. *)
Fixpoint Sprintf (format : string) (args : list string) : string :=
  match format with
  | EmptyString => EmptyString
  | String c rest =>
      if Ascii.eqb c percent then
        match rest with
        | String v rest' =>
            if Ascii.eqb v verb_s then
              match args with
              | a :: args' => a ++ Sprintf rest' args'
              | [] => "%!s(MISSING)" ++ Sprintf rest' []
              end
            else String c (String v (Sprintf rest' args))
        | EmptyString => "%!(NOVERB)"
        end
      else String c (Sprintf rest args)
  end.

End fmt.

(** ** Errors *)

(** The error values that flow through the package.  Go compares errors by
    identity: the only comparison in the package is against the sentinel
    iterator.Done, which no other error value equals. *)
Inductive error : Type :=
| errorString (text : string)          (* built by errors.New *)
| iteratorDone                         (* the sentinel iterator.Done *)
| apiError (code : Z) (text : string). (* a failure reported by the service *)

Module errors.
Definition New (text : string) : error := errorString text.
End errors.

Module iterator.
Definition Done : error := iteratorDone.
End iterator.

(** err != iterator.Done *)
Definition isDone (e : option error) : bool :=
  match e with
  | Some iteratorDone => true
  | _ => false
  end.

(** err.Error() *)
Definition errorText (e : error) : string :=
  match e with
  | errorString text => text
  | iteratorDone => "no more items in iterator"
  | apiError _ text => text
  end.

(** ** Go values behind an interface *)

Definition loc := positive.

(** What an interface{} argument or a bigquery.Value can hold here. *)
#[local] Set Warnings "-register-all".
Inductive Value : Type :=
| VNil                                       (* the nil interface; SQL NULL *)
| VBool (b : bool)
| VInt (n : Z)
| VString (s : string)
| VTime (t : Z)                              (* time.Time, as an instant *)
| VStruct (fields : list (string * Value))   (* a struct value *)
| VMap (m : option (list (string * Value)))  (* map[string]bigquery.Value; None is the nil map *)
| VPtr (p : option loc).                     (* a typed pointer; None is nil *)

Module reflect.

Inductive Kind : Type :=
| Invalid | Bool | Int64 | String | Struct | Map | Ptr.

Definition Kind_eqb (a b : Kind) : bool :=
  match a, b with
  | Invalid, Invalid | Bool, Bool | Int64, Int64 | String, String
  | Struct, Struct | Map, Map | Ptr, Ptr => true
  | _, _ => false
  end.

(** A reflect.Value: None is the zero Value, which holds nothing. *)
Definition rValue := option Value.

(** reflect.ValueOf: ValueOf(nil) is the zero Value. *)
Definition ValueOf (i : Value) : rValue :=
  match i with
  | VNil => None
  | v => Some v
  end.

Definition kindOf (v : Value) : Kind :=
  match v with
  | VNil => Invalid
  | VBool _ => Bool
  | VInt _ => Int64
  | VString _ => String
  | VTime _ => Struct
  | VStruct _ => Struct
  | VMap _ => Map
  | VPtr _ => Ptr
  end.

(** Value.Kind: the zero Value has kind Invalid. *)
Definition Kind_ (v : rValue) : Kind :=
  match v with
  | None => Invalid
  | Some x => kindOf x
  end.

(** Value.Type().Kind(): Value.Type panics on the zero Value, which is
    rendered as None. *)
Definition TypeKind (v : rValue) : option Kind :=
  match v with
  | None => None
  | Some x => Some (kindOf x)
  end.

(** reflect.Indirect: the value v points to; the zero Value for a nil
    pointer; v itself when v is not a pointer. *)
Definition Indirect (h : gmap loc Value) (v : rValue) : rValue :=
  match v with
  | Some (VPtr None) => None
  | Some (VPtr (Some a)) => h !! a
  | _ => v
  end.

End reflect.

(** ** The BigQuery client library, as the package sees it *)

Module bigquery.

Record Dataset : Type := mkDataset {
  ProjectID : string;
  DatasetID : string
}.

Record Table : Type := mkTable {
  TableProjectID : string;
  TableDatasetID : string;
  TableID : string
}.

(** TableWriteDisposition is a string type; the empty string leaves the
    choice to the service. *)
Definition TableWriteDisposition := string.
Definition WriteAppend : TableWriteDisposition := "WRITE_APPEND".
Definition WriteTruncate : TableWriteDisposition := "WRITE_TRUNCATE".
Definition WriteEmpty : TableWriteDisposition := "WRITE_EMPTY".

Record QueryConfig : Type := mkQueryConfig {
  Q : string;
  Dst : option Table;
  DryRun : bool;
  UseLegacySQL : bool;
  DefaultProjectID : string;
  DefaultDatasetID : string;
  AllowLargeResults : bool;
  DisableFlattenedResults : bool;
  WriteDisposition : TableWriteDisposition
}.

(** One result row: column name and value, in schema order. *)
Definition Row := list (string * Value).

(** A row cursor is the sequence of fetches still ahead of it: each either
    delivers a row or breaks with a hard error.  Past the last fetch the
    cursor reports iterator.Done, and keeps reporting it. *)
Inductive fetch : Type :=
| Delivers (r : Row)
| Breaks (e : error).

Definition RowIterator := list fetch.

Record Job : Type := mkJob { ID : string }.

Inductive State : Type := Pending | Running | StateDone.

Record JobStatus : Type := mkJobStatus {
  JobState : State;
  Err : option error
}.

(** The service behind a client handle.  What it answers is not decided by
    the package, so it is a parameter: a theorem about a handle holds for
    whatever these three functions are.  Waiting for a job either comes to
    the job's end, which the job reached with an error of its own or with
    none, or fails to. *)
Record Client : Type := mkClient {
  readAnswer : QueryConfig -> RowIterator + error;
  runAnswer : QueryConfig -> Job + error;
  waitResult : Job -> option error + error
}.

(** What Job.Wait returns: the final status of the job with a nil error,
    also for a job that failed, whose status carries the failure; or a nil
    status with the error that kept Wait from getting there. *)
Definition waitAnswer (c : Client) (j : Job) : option JobStatus * option error :=
  match waitResult c j with
  | inl jobErr => (Some {| JobState := StateDone; Err := jobErr |}, None)
  | inr e => (None, Some e)
  end.

(** A *Query: the client it came from and its embedded QueryConfig. *)
Record Query : Type := mkQuery {
  client : Client;
  Config : QueryConfig
}.

(** Client.Query: a query with text q and every other setting at its
    zero value. *)
Definition Client_Query (c : Client) (q : string) : Query :=
  {| client := c;
     Config := {| Q := q; Dst := None; DryRun := false; UseLegacySQL := false;
                  DefaultProjectID := EmptyString; DefaultDatasetID := EmptyString;
                  AllowLargeResults := false; DisableFlattenedResults := false;
                  WriteDisposition := EmptyString |} |}.

(** Client.Dataset, Client.DatasetInProject and Dataset.Table build
    references; none of them talks to the service. *)
Definition DatasetInProject (c : Client) (project dataset : string) : Dataset :=
  {| ProjectID := project; DatasetID := dataset |}.

Definition Dataset_Table (d : Dataset) (tableID : string) : Table :=
  {| TableProjectID := ProjectID d; TableDatasetID := DatasetID d; TableID := tableID |}.

(** Assignments to the fields of q.QueryConfig. *)
Definition withConfig (f : QueryConfig -> QueryConfig) (q : Query) : Query :=
  {| client := client q; Config := f (Config q) |}.

Definition setDst (t : Table) (c : QueryConfig) : QueryConfig :=
  mkQueryConfig (Q c) (Some t) (DryRun c) (UseLegacySQL c) (DefaultProjectID c)
    (DefaultDatasetID c) (AllowLargeResults c) (DisableFlattenedResults c) (WriteDisposition c).
Definition setDryRun (b : bool) (c : QueryConfig) : QueryConfig :=
  mkQueryConfig (Q c) (Dst c) b (UseLegacySQL c) (DefaultProjectID c)
    (DefaultDatasetID c) (AllowLargeResults c) (DisableFlattenedResults c) (WriteDisposition c).
Definition setUseLegacySQL (b : bool) (c : QueryConfig) : QueryConfig :=
  mkQueryConfig (Q c) (Dst c) (DryRun c) b (DefaultProjectID c)
    (DefaultDatasetID c) (AllowLargeResults c) (DisableFlattenedResults c) (WriteDisposition c).
Definition setDefaultProjectID (s : string) (c : QueryConfig) : QueryConfig :=
  mkQueryConfig (Q c) (Dst c) (DryRun c) (UseLegacySQL c) s
    (DefaultDatasetID c) (AllowLargeResults c) (DisableFlattenedResults c) (WriteDisposition c).
Definition setDefaultDatasetID (s : string) (c : QueryConfig) : QueryConfig :=
  mkQueryConfig (Q c) (Dst c) (DryRun c) (UseLegacySQL c) (DefaultProjectID c)
    s (AllowLargeResults c) (DisableFlattenedResults c) (WriteDisposition c).
Definition setAllowLargeResults (b : bool) (c : QueryConfig) : QueryConfig :=
  mkQueryConfig (Q c) (Dst c) (DryRun c) (UseLegacySQL c) (DefaultProjectID c)
    (DefaultDatasetID c) b (DisableFlattenedResults c) (WriteDisposition c).
Definition setDisableFlattenedResults (b : bool) (c : QueryConfig) : QueryConfig :=
  mkQueryConfig (Q c) (Dst c) (DryRun c) (UseLegacySQL c) (DefaultProjectID c)
    (DefaultDatasetID c) (AllowLargeResults c) b (WriteDisposition c).
Definition setWriteDisposition (d : TableWriteDisposition) (c : QueryConfig) : QueryConfig :=
  mkQueryConfig (Q c) (Dst c) (DryRun c) (UseLegacySQL c) (DefaultProjectID c)
    (DefaultDatasetID c) (AllowLargeResults c) (DisableFlattenedResults c) d.

(** *** Loading a row into a destination *)

(** The two errors of the struct loader.  The library's text for the
    first names the types of the column and of the field as well; a row
    carries no schema here, so the text names the column alone. *)
Definition mismatch (column : string) : error :=
  errorString ("bigquery: schema field " ++ column ++ " is not assignable to the struct field of that name").

Definition errNoNulls : error :=
  errorString "bigquery: NULL values cannot be read into structs".

(** Where the first field is whose name matches column under same. *)
Fixpoint position (same : string -> string -> bool) (column : string)
  (fields : list (string * Value)) : option nat :=
  match fields with
  | [] => None
  | (f, _) :: rest =>
      if same f column then Some 0%nat
      else match position same column rest with
           | Some i => Some (S i)
           | None => None
           end
  end.

(** A column goes to the field of exactly its name when there is one, and
    otherwise to a field of its name up to the case of letters; a column
    with no such field is ignored. *)
Definition matchField (column : string) (fields : list (string * Value)) : option nat :=
  match position String.eqb column fields with
  | Some i => Some i
  | None => position strings.EqualFold column fields
  end.

(** Before anything is written the loader checks every column that has a
    field against the type of the field, which is the kind of what the field
    holds.  A NULL carries no type here and passes. *)
Fixpoint compileToOps (r : Row) (fields : list (string * Value)) : option error :=
  match r with
  | [] => None
  | (column, v) :: r' =>
      match matchField column fields with
      | Some i =>
          match fields !! i, v with
          | Some (_, old), VNil => compileToOps r' fields
          | Some (_, old), _ =>
              if reflect.Kind_eqb (reflect.kindOf old) (reflect.kindOf v)
              then compileToOps r' fields
              else Some (mismatch column)
          | None, _ => compileToOps r' fields
          end
      | None => compileToOps r' fields
      end
  end.

(** Then it writes the columns one after the other, and stops at the
    first NULL: the fields written before it stay written. *)
Fixpoint runOps (r : Row) (fields : list (string * Value))
  : list (string * Value) * option error :=
  match r with
  | [] => (fields, None)
  | (column, v) :: r' =>
      match matchField column fields with
      | Some i =>
          match v with
          | VNil => (fields, Some errNoNulls)
          | _ => runOps r' (alter (fun fv => (fst fv, v)) i fields)
          end
      | None => runOps r' fields
      end
  end.

(** The struct loader: what the struct holds afterwards, and the error. *)
Definition runLoad (r : Row) (fields : list (string * Value))
  : list (string * Value) * option error :=
  match compileToOps r fields with
  | Some e => (fields, Some e)
  | None => runOps r fields
  end.

(** The struct loader as a whole: the struct loaded, or the error. *)
Definition structLoad (r : Row) (fields : list (string * Value))
  : list (string * Value) + error :=
  match runLoad r fields with
  | (fields', None) => inl fields'
  | (_, Some e) => inr e
  end.

(** The map loader: allocates the map when it is nil, then stores every
    column after what the map held; it cannot fail. *)
Definition mapLoad (r : Row) (m : option (list (string * Value))) : list (string * Value) :=
  default [] m ++ r.

Definition badDestination : error :=
  errorString "bigquery: cannot convert destination to ValueLoader (need pointer to []Value, map[string]Value, or struct)".

(** How Next loads a row into what dst points to: a map, a struct, or
    time.Time, a struct none of whose fields a column can name.  Nothing
    else is a destination.  A loader gives what the destination holds
    afterwards and the error of the load. *)
Definition loaderFor (pointee : Value) : option (Row -> Value * option error) :=
  match pointee with
  | VMap m => Some (fun r => (VMap (Some (mapLoad r m)), None))
  | VStruct fields =>
      Some (fun r => (VStruct (fst (runLoad r fields)), snd (runLoad r fields)))
  | VTime t => Some (fun _ => (VTime t, None))
  | _ => None
  end.

(** The destination behind dst.  A nil pointer carries no type in this
    model and stands for a nil pointer to what is neither a struct nor a map,
    which Next refuses before it fetches; for a nil pointer to a struct Next
    would fetch a row first and fail loading it.  The package hands no nil
    pointer to Next: QueryAndParse refuses one itself, and the buffers the
    package reads into are its own locals. *)
Definition destination (dst : Value) (h : gmap loc Value)
  : option (loc * (Row -> Value * option error)) :=
  match dst with
  | VPtr (Some a) =>
      match h !! a with
      | Some pointee =>
          match loaderFor pointee with
          | Some load => Some (a, load)
          | None => None
          end
      | None => None
      end
  | _ => None
  end.

(** RowIterator.Next(dst) on cursor it with the heap h: the error
    returned, the cursor afterwards, the heap afterwards.  The destination
    is inspected first; then a row is fetched; then it is loaded. *)
Definition next (dst : Value) (it : RowIterator) (h : gmap loc Value)
  : option error * RowIterator * gmap loc Value :=
  match destination dst h with
  | None => (Some badDestination, it, h)
  | Some (a, load) =>
      match it with
      | [] => (Some iterator.Done, [], h)
      | Breaks e :: rest => (Some e, rest, h)
      | Delivers r :: rest => (snd (load r), rest, <[a := fst (load r)]> h)
      end
  end.

End bigquery.

(** ** The monad the package runs in *)

(** A call that reaches the query service, with what was sent. *)
Inductive Call : Type :=
| CallRead (c : bigquery.QueryConfig)   (* Query.Read *)
| CallNext (dst : Value)                (* RowIterator.Next *)
| CallRun (c : bigquery.QueryConfig)    (* Query.Run *)
| CallWait (j : bigquery.Job).          (* Job.Wait *)

(** What a call can change: the heap, the calls made to the service so far
    (oldest first) and the lines handed to package log. *)
Record World : Type := mkWorld {
  heap : gmap loc Value;
  calls : list Call;
  logged : list string
}.

Inductive result (A : Type) : Type :=
| Returns (a : A)
| Panics (msg : string).
Arguments Returns {A} a.
Arguments Panics {A} msg.

Definition Go (A : Type) : Type := World -> result A * World.

Definition ret {A : Type} (a : A) : Go A := fun w => (Returns a, w).

Definition bind {A B : Type} (m : Go A) (k : A -> Go B) : Go B :=
  fun w =>
    match m w with
    | (Returns a, w') => k a w'
    | (Panics msg, w') => (Panics msg, w')
    end.

Definition panic {A : Type} (msg : string) : Go A := fun w => (Panics msg, w).

Declare Scope go_scope.
Delimit Scope go_scope with go.
Notation "x <- m ;; k" := (bind m (fun x => k))
  (at level 100, m at next level, right associativity) : go_scope.
Notation "m ;; k" := (bind m (fun _ => k))
  (at level 100, right associativity) : go_scope.
Local Open Scope go_scope.

Definition setHeap (h : gmap loc Value) (w : World) : World :=
  {| heap := h; calls := calls w; logged := logged w |}.

Definition getHeap : Go (gmap loc Value) := fun w => (Returns (heap w), w).

Definition record (c : Call) : Go unit :=
  fun w => (Returns tt, {| heap := heap w; calls := calls w ++ [c]; logged := logged w |}).

(** A local variable whose address is taken: it lives at a fresh location
    for the extent of body and is gone afterwards. *)
Definition withLocal {A : Type} (v : Value) (body : loc -> Go A) : Go A :=
  fun w =>
    let a := fresh (dom (heap w)) in
    match body a (setHeap (<[a := v]> (heap w)) w) with
    | (r, w') => (r, setHeap (delete a (heap w')) w')
    end.

Module log.
(** log.Println and log.Printf: one more line in the log. *)
Definition Println (line : string) : Go unit :=
  fun w => (Returns tt, {| heap := heap w; calls := calls w; logged := logged w ++ [line] |}).
End log.

(** typeInfo.Type().Kind() *)
Definition typeKind (v : reflect.rValue) : Go reflect.Kind :=
  match reflect.TypeKind v with
  | Some k => ret k
  | None => panic "reflect: call of reflect.Value.Type on zero Value"
  end.

(** The library calls, each recorded before it is answered. *)

Definition Query_Read (q : bigquery.Query) : Go (bigquery.RowIterator + error) :=
  record (CallRead (bigquery.Config q)) ;;
  ret (bigquery.readAnswer (bigquery.client q) (bigquery.Config q)).

Definition RowIterator_Next (it : bigquery.RowIterator) (dst : Value)
  : Go (option error * bigquery.RowIterator) :=
  record (CallNext dst) ;;
  fun w =>
    match bigquery.next dst it (heap w) with
    | (err, it', h') => (Returns (err, it'), setHeap h' w)
    end.

Definition Query_Run (q : bigquery.Query) : Go (bigquery.Job + error) :=
  record (CallRun (bigquery.Config q)) ;;
  ret (bigquery.runAnswer (bigquery.client q) (bigquery.Config q)).

(** Job.Wait; the job was started through client c. *)
Definition Job_Wait (c : bigquery.Client) (j : bigquery.Job)
  : Go (option bigquery.JobStatus * option error) :=
  record (CallWait j) ;;
  ret (bigquery.waitAnswer c j).

(** ** Package bqext *)

Module bqext.

(** Dataset encapsulates the client and the dataset reference.  The Go
    field holding the reference is itself called Dataset; it is
    BqDataset here, where a type and a field cannot share a name.  A value
    of the record is a handle with both pointers set, as NewDataset returns
    it beside a nil error. *)
Record Dataset : Type := mkDataset {
  BqClient : bigquery.Client;
  BqDataset : bigquery.Dataset
}.

(** ResultQuery constructs a query with common QueryConfig settings. *)
Definition ResultQuery (dsExt : Dataset) (query : string) (dryRun : bool) : bigquery.Query :=
  let q := bigquery.Client_Query (BqClient dsExt) query in
  let q := bigquery.withConfig (bigquery.setDryRun dryRun) q in
  let q := if strings.HasPrefix query "#legacySQL"
           then bigquery.withConfig (bigquery.setUseLegacySQL true) q
           else q in
  let q := bigquery.withConfig
             (bigquery.setDefaultProjectID (bigquery.ProjectID (BqDataset dsExt))) q in
  let q := bigquery.withConfig
             (bigquery.setDefaultDatasetID (bigquery.DatasetID (BqDataset dsExt))) q in
  q.

Definition badArgument : error := errors.New "Argument should be ptr to struct".
Definition multipleRows : error := errors.New "multiple row data".

(** QueryAndParse executes a query that should return a single row, with
    the struct behind structPtr filled in from it. *)
Definition QueryAndParse (dsExt : Dataset) (q : string) (structPtr : Value) : Go (option error) :=
  let typeInfo := reflect.ValueOf structPtr in
  k <- typeKind typeInfo ;;
  if negb (reflect.Kind_eqb k reflect.Ptr) then ret (Some badArgument) else
  h <- getHeap ;;
  if negb (reflect.Kind_eqb (reflect.Kind_ (reflect.Indirect h typeInfo)) reflect.Struct)
  then ret (Some badArgument) else
  let query := ResultQuery dsExt q false in
  r <- Query_Read query ;;
  match r with
  | inr err => ret (Some err)
  | inl it =>
      (* We expect a single result row, so proceed accordingly. *)
      r1 <- RowIterator_Next it structPtr ;;
      let '(err, it) := r1 in
      match err with
      | Some e => ret (Some e)
      | None =>
          withLocal (VMap None) (fun row =>
            (* If there are more rows, then something is wrong. *)
            r2 <- RowIterator_Next it (VPtr (Some row)) ;;
            let '(err, it) := r2 in
            if negb (isDone err) then ret (Some multipleRows) else ret None)
      end
  end.

(** PartitionInfo provides basic information about a partition. *)
Record PartitionInfo : Type := mkPartitionInfo {
  PartitionID : string;
  CreationTime : Z;
  LastModified : Z
}.

(** PartitionInfo{}: the empty string and the zero time. *)
Definition zeroPartitionInfo : PartitionInfo :=
  {| PartitionID := EmptyString; CreationTime := 0; LastModified := 0 |}.

(** A PartitionInfo as reflection sees it, field by field, and back. *)
Definition toValue (pi : PartitionInfo) : Value :=
  VStruct [("PartitionID", VString (PartitionID pi));
           ("CreationTime", VTime (CreationTime pi));
           ("LastModified", VTime (LastModified pi))].

Definition field (name : string) (fields : list (string * Value)) : option Value :=
  match List.find (fun fv => String.eqb (fst fv) name) fields with
  | Some fv => Some (snd fv)
  | None => None
  end.

Definition ofValue (v : option Value) : PartitionInfo :=
  match v with
  | Some (VStruct fields) =>
      {| PartitionID := match field "PartitionID" fields with
                        | Some (VString s) => s | _ => EmptyString end;
         CreationTime := match field "CreationTime" fields with
                         | Some (VTime t) => t | _ => 0%Z end;
         LastModified := match field "LastModified" fields with
                         | Some (VTime t) => t | _ => 0%Z end |}
  | _ => zeroPartitionInfo
  end.

Definition LF : string := String (ascii_of_nat 10) EmptyString.
Definition TAB : string := String (ascii_of_nat 9) EmptyString.
Definition QUOTE : string := String (ascii_of_nat 34) EmptyString.

(** The format of the partition query, line by line as in the source:
    the select list, then the table and the filter with their two verbs. *)
Definition partitionSelect : string :=
  "#legacySQL" ++ LF ++
  TAB ++ TAB ++ "SELECT" ++ LF ++
  TAB ++ TAB ++ "  partition_id as PartitionID," ++ LF ++
  TAB ++ TAB ++ "  msec_to_timestamp(creation_time) AS CreationTime," ++ LF ++
  TAB ++ TAB ++ "  msec_to_timestamp(last_modified_time) AS LastModified" ++ LF ++
  TAB ++ TAB ++ "FROM" ++ LF ++
  TAB ++ TAB ++ "  ".

Definition partitionTemplate : string :=
  partitionSelect ++
  "[%s$__PARTITIONS_SUMMARY__]" ++ LF ++
  TAB ++ TAB ++ "where partition_id = " ++ QUOTE ++ "%s" ++ QUOTE ++ " ".

(** GetPartitionInfo provides basic information about a partition. *)
Definition GetPartitionInfo (dsExt : Dataset) (table partition : string)
  : Go (PartitionInfo * option error) :=
  (* This uses legacy, because PARTITION_SUMMARY is not supported in standard. *)
  let queryString := fmt.Sprintf partitionTemplate [table; partition] in
  withLocal (toValue zeroPartitionInfo) (fun pi =>
    err <- QueryAndParse dsExt queryString (VPtr (Some pi)) ;;
    match err with
    | Some e =>
        log.Println (errorText e ++ LF) ;;
        ret (zeroPartitionInfo, Some e)
    | None =>
        h <- getHeap ;;
        ret (ofValue (h !! pi), None)
    end).

(** DestinationQuery constructs a query with common Config settings for
    writing results to a table. *)
Definition DestinationQuery (dsExt : Dataset) (query : string) (dest : option bigquery.Table)
  : bigquery.Query :=
  let q := bigquery.Client_Query (BqClient dsExt) query in
  let q := match dest with
           | Some t => bigquery.withConfig (bigquery.setDst t) q
           | None => bigquery.withConfig (bigquery.setDryRun true) q
           end in
  let q := bigquery.withConfig (bigquery.setAllowLargeResults true) q in
  let q := bigquery.withConfig
             (bigquery.setDefaultProjectID (bigquery.ProjectID (BqDataset dsExt))) q in
  let q := bigquery.withConfig
             (bigquery.setDefaultDatasetID (bigquery.DatasetID (BqDataset dsExt))) q in
  let q := bigquery.withConfig (bigquery.setDisableFlattenedResults true) q in
  q.

Definition dedupTemplate : string :=
  LF ++
  TAB ++ "#standardSQL" ++ LF ++
  TAB ++ "# Delete all duplicate rows based on test_id" ++ LF ++
  TAB ++ "SELECT * except (row_number)" ++ LF ++
  TAB ++ "FROM (" ++ LF ++
  TAB ++ "  SELECT *, ROW_NUMBER() OVER (PARTITION BY %s) row_number" ++ LF ++
  TAB ++ "  FROM " ++ "`%s`" ++ ")" ++ LF ++
  TAB ++ "WHERE row_number = 1".

Definition missingPartition : error :=
  errors.New "Destination table does not specify partition".

(** Dedup executes a query that dedups and writes to an appropriate
    partition.  The destination table must include the partition suffix. *)
Definition Dedup (dsExt : Dataset) (src dedupOn : string) (overwrite : bool)
    (project dataset table : string)
  : Go (option bigquery.JobStatus * option error) :=
  if negb (strings.Contains table "$") then ret (None, Some missingPartition) else
  let queryString := fmt.Sprintf dedupTemplate [dedupOn; src] in
  let dest := bigquery.DatasetInProject (BqClient dsExt) project dataset in
  let q := DestinationQuery dsExt queryString (Some (bigquery.Dataset_Table dest table)) in
  let q := if overwrite
           then bigquery.withConfig (bigquery.setWriteDisposition bigquery.WriteTruncate) q
           else q in
  log.Println (fmt.Sprintf ("Removing dups (of %s) and writing to %s" ++ LF) [dedupOn; table]) ;;
  r <- Query_Run q ;;
  match r with
  | inr err => ret (None, Some err)
  | inl job =>
      log.Println ("JobID: " ++ bigquery.ID job ++ LF) ;;
      r <- Job_Wait (bigquery.client q) job ;;
      let '(status, err) := r in
      match err with
      | Some e => ret (status, Some e)
      | None => ret (status, None)
      end
  end.

(** *** Error kinds

    The package has no error types of its own: a caller tells the kinds
    apart by the sentinel or by the message. *)
Inductive ErrorKind : Type :=
| NoRows | MultipleRows | MissingPartitionQualifier | BadArgument | ServiceFailure | OtherError.

Definition kindOfError (e : error) : ErrorKind :=
  match e with
  | iteratorDone => NoRows
  | apiError _ _ => ServiceFailure
  | errorString text =>
      if String.eqb text "multiple row data" then MultipleRows
      else if String.eqb text "Destination table does not specify partition"
           then MissingPartitionQualifier
      else if String.eqb text "Argument should be ptr to struct" then BadArgument
      else OtherError
  end.

End bqext.

(** ** Vocabulary of the properties *)

(** sub occurs within s. *)
Definition substring (sub s : string) : Prop :=
  exists before after : string, s = (before ++ sub ++ after)%string.

(** v is a pointer to a struct held in heap h. *)
Definition pointsToStruct (h : gmap loc Value) (v : Value) : Prop :=
  exists (p : loc) (x : Value),
    v = VPtr (Some p) /\ h !! p = Some x /\ reflect.kindOf x = reflect.Struct.

(** s begins with prefix. *)
Definition beginsWith (prefix s : string) : Prop :=
  exists rest : string, s = (prefix ++ rest)%string.

(** The configuration QueryAndParse reads with. *)
Definition readConfig (dsExt : bqext.Dataset) (q : string) : bigquery.QueryConfig :=
  bigquery.Config (bqext.ResultQuery dsExt q false).

(** The world after a call that made the service calls in made and left
    the heap as h. *)
Definition after (w : World) (h : gmap loc Value) (made : list Call) : World :=
  {| heap := h; calls := calls w ++ made; logged := logged w |}.

(** The line Dedup logs before it runs the query. *)
Definition dedupAnnouncement (dedupOn table : string) : string :=
  fmt.Sprintf ("Removing dups (of %s) and writing to %s" ++ bqext.LF) [dedupOn; table].

(** The configuration Dedup hands to the service. *)
Definition dedupConfig (dsExt : bqext.Dataset) (src dedupOn : string) (overwrite : bool)
    (project dataset table : string) : bigquery.QueryConfig :=
  let dest := bigquery.DatasetInProject (bqext.BqClient dsExt) project dataset in
  let q := bqext.DestinationQuery dsExt (fmt.Sprintf bqext.dedupTemplate [dedupOn; src])
             (Some (bigquery.Dataset_Table dest table)) in
  bigquery.Config
    (if overwrite
     then bigquery.withConfig (bigquery.setWriteDisposition bigquery.WriteTruncate) q
     else q).

(** The configuration GetPartitionInfo reads with. *)
Definition partitionConfig (dsExt : bqext.Dataset) (table partition : string)
  : bigquery.QueryConfig :=
  bigquery.Config
    (bqext.ResultQuery dsExt (fmt.Sprintf bqext.partitionTemplate [table; partition]) false).

(** The partitions of a table as its summary pseudo-table lists them:
    partition id to creation and last-modification instants.  The partition
    query selects the entry whose id equals the one asked for, under the
    column names PartitionID, CreationTime and LastModified. *)
Definition summaryRow (id : string) (times : Z * Z) : bigquery.Row :=
  [("PartitionID", VString id); ("CreationTime", VTime (fst times));
   ("LastModified", VTime (snd times))].

Definition summaryAnswer (partitions : gmap string (Z * Z)) (partition : string)
  : bigquery.RowIterator :=
  match partitions !! partition with
  | Some times => [bigquery.Delivers (summaryRow partition times)]
  | None => []
  end.

(** ** Sample handles, for running the package on concrete inputs *)

Module sample.

Definition oneRow : bigquery.Row := summaryRow "20230101" (5%Z, 7%Z).
Definition otherRow : bigquery.Row := summaryRow "20230102" (6%Z, 8%Z).
(** A row whose PartitionID column holds an integer. *)
Definition illTypedRow : bigquery.Row := [("PartitionID", VInt 20230101)].

Definition partitions : gmap string (Z * Z) :=
  {[ "20230101" := (5%Z, 7%Z) ]}.

Definition finished : bigquery.JobStatus :=
  {| bigquery.JobState := bigquery.StateDone; bigquery.Err := None |}.

(** A service that answers a few fixed query texts and the partition
    query of mytable, runs every job and reports it finished. *)
Definition client : bigquery.Client :=
  {| bigquery.readAnswer := fun c =>
       let text := bigquery.Q c in
       if String.eqb text "one" then inl [bigquery.Delivers oneRow]
       else if String.eqb text "two"
            then inl [bigquery.Delivers oneRow; bigquery.Delivers otherRow]
       else if String.eqb text "ill-typed" then inl [bigquery.Delivers illTypedRow]
       else if String.eqb text (fmt.Sprintf bqext.partitionTemplate ["mytable"; "20230101"])
            then inl (summaryAnswer partitions "20230101")
       else if String.eqb text (fmt.Sprintf bqext.partitionTemplate ["mytable"; "19700101"])
            then inl (summaryAnswer partitions "19700101")
       else inl [];
     bigquery.runAnswer := fun _ => inl {| bigquery.ID := "job_1" |};
     bigquery.waitResult := fun _ => inl None |}.

Definition dataset : bqext.Dataset :=
  {| bqext.BqClient := client;
     bqext.BqDataset := {| bigquery.ProjectID := "project"; bigquery.DatasetID := "dataset" |} |}.

(** A service whose jobs end in failure: Wait comes to the end of the
    job, and the final status carries the job's own error. *)
Definition refused : error := apiError 409 "Already Exists: Table project:dataset.mytable".
Definition failed : bigquery.JobStatus :=
  {| bigquery.JobState := bigquery.StateDone; bigquery.Err := Some refused |}.
Definition failingClient : bigquery.Client :=
  {| bigquery.readAnswer := fun _ => inr refused;
     bigquery.runAnswer := fun _ => inl {| bigquery.ID := "job_2" |};
     bigquery.waitResult := fun _ => inl (Some refused) |}.
Definition failingDataset : bqext.Dataset :=
  {| bqext.BqClient := failingClient;
     bqext.BqDataset := {| bigquery.ProjectID := "project"; bigquery.DatasetID := "dataset" |} |}.

(** A service that accepts a job and cannot be reached afterwards: Wait
    fails. *)
Definition unavailable : error := apiError 503 "Service Unavailable".
Definition lostClient : bigquery.Client :=
  {| bigquery.readAnswer := fun _ => inr unavailable;
     bigquery.runAnswer := fun _ => inl {| bigquery.ID := "job_3" |};
     bigquery.waitResult := fun _ => inr unavailable |}.
Definition lostDataset : bqext.Dataset :=
  {| bqext.BqClient := lostClient;
     bqext.BqDataset := {| bigquery.ProjectID := "project"; bigquery.DatasetID := "dataset" |} |}.

(** A world with one PartitionInfo{} at location 1 and nothing done yet. *)
Definition target : loc := 1%positive.
Definition targetFields : list (string * Value) :=
  [("PartitionID", VString EmptyString); ("CreationTime", VTime 0); ("LastModified", VTime 0)].
Definition world : World :=
  {| heap := {[ target := VStruct targetFields ]}; calls := []; logged := [] |}.

End sample.

(** ** Package bqutil: the tag-driven row parser and its single-row query *)

(** A pure computation that can panic, run inside Go. *)
Definition liftResult {A : Type} (r : result A) : Go A := fun w => (r, w).

(** The Go map a map buffer holds: the columns stored one after the other,
    a later store to a key replacing an earlier one.  The nil map and
    anything that is no map have no key. *)
Definition asGoMap (v : option Value) : gmap string Value :=
  match v with
  | Some (VMap (Some columns)) =>
      fold_left (fun m kv => <[fst kv := snd kv]> m) columns ∅
  | _ => ∅
  end.

Module bqutil.

(** The types a field of a model struct can have here: the Go types the
    query service produces, and the empty interface. *)
Inductive GoType : Type := TBool | TInt64 | TString | TTime | TInterface.

Definition typeName (t : GoType) : string :=
  match t with
  | TBool => "bool"
  | TInt64 => "int64"
  | TString => "string"
  | TTime => "time.Time"
  | TInterface => "interface {}"
  end.

(** reflect.Zero of a field type. *)
Definition zeroOf (t : GoType) : Value :=
  match t with
  | TBool => VBool false
  | TInt64 => VInt 0
  | TString => VString EmptyString
  | TTime => VTime 0
  | TInterface => VNil
  end.

(** The dynamic type of a row value; nil has none. *)
Definition typeOf (v : Value) : option GoType :=
  match v with
  | VBool _ => Some TBool
  | VInt _ => Some TInt64
  | VString _ => Some TString
  | VTime _ => Some TTime
  | _ => None
  end.

Definition valueTypeName (v : Value) : string :=
  match typeOf v with
  | Some t => typeName t
  | None => "a composite type"
  end.

(** Type.AssignableTo: the same type, or any type to the empty interface. *)
Definition assignable (v : Value) (t : GoType) : bool :=
  match t, v with
  | TInterface, _ => true
  | TBool, VBool _ | TInt64, VInt _ | TString, VString _ | TTime, VTime _ => true
  | _, _ => false
  end.

(** One field of a struct type, as reflect.StructField describes it: its
    name, whether it is exported, what Tag.Get of qfield gives (the empty
    string without such a tag) and its type. *)
Record StructField : Type := mkStructField {
  Name : string;
  IsExported : bool;
  Qfield : string;
  Type_ : GoType
}.

(** A value that is no struct: what it is never matters to the parser. *)
Inductive Plain : Type :=
| PBool (b : bool)
| PInt (n : Z)
| PString (s : string)
| PMap (m : option (list (string * Value)))
| PPtr (p : option loc).

(** What the model argument, an interface{}, can hold: nothing, a struct
    value with its type, or something that is no struct. *)
Inductive Model : Type :=
| Nil
| Struct (type : list StructField) (values : list Value)
| Other (v : Plain).

(** field.Set(reflect.ValueOf(v)) for the column found under the field's
    tag: Set panics on an unexported field, on the zero Value that nil gives,
    and on a value that is not assignable; without a column the field stays
    zero. *)
Definition store (row : gmap string Value) (f : StructField) : result Value :=
  match row !! Qfield f with
  | None => Returns (zeroOf (Type_ f))
  | Some v =>
      if negb (IsExported f)
      then Panics "reflect: reflect.Value.Set using value obtained using unexported field"
      else
        match v with
        | VNil => Panics "reflect: call of reflect.Value.Set on zero Value"
        | _ =>
            if assignable v (Type_ f) then Returns v
            else Panics ("reflect.Set: value of type " ++ valueTypeName v
                         ++ " is not assignable to type " ++ typeName (Type_ f))
        end
  end.

(** The loop over the fields, first to last. *)
Fixpoint fill (row : gmap string Value) (fields : list StructField) : result (list Value) :=
  match fields with
  | [] => Returns []
  | f :: rest =>
      match store row f with
      | Panics msg => Panics msg
      | Returns v =>
          match fill row rest with
          | Panics msg => Panics msg
          | Returns vs => Returns (v :: vs)
          end
      end
  end.

(** parseModel will parse a bigquery row map into a new item matching
    model. *)
Definition parseModel (row : gmap string Value) (model : Model)
  : result (Model * option error) :=
  match model with
  | Nil => Panics "reflect: call of reflect.Value.Type on zero Value"
  | Other _ => Panics "reflect: NumField of non-struct type"
  | Struct typeOfModel _ =>
      match fill row typeOfModel with
      | Panics msg => Panics msg
      | Returns elem => Returns (Struct typeOfModel elem, None)
      end
  end.

(** TableUtil encapsulates the client and the dataset reference. *)
Record TableUtil : Type := mkTableUtil {
  BqClient : bigquery.Client;
  Dataset : bigquery.Dataset
}.

(** ResultQuery constructs a query with common QueryConfig settings. *)
Definition ResultQuery (util : TableUtil) (query : string) (dryRun : bool) : bigquery.Query :=
  let q := bigquery.Client_Query (BqClient util) query in
  let q := bigquery.withConfig (bigquery.setDryRun dryRun) q in
  let q := if strings.HasPrefix query "#legacySQL"
           then bigquery.withConfig (bigquery.setUseLegacySQL true) q
           else q in
  let q := bigquery.withConfig
             (bigquery.setDefaultProjectID (bigquery.ProjectID (Dataset util))) q in
  let q := bigquery.withConfig
             (bigquery.setDefaultDatasetID (bigquery.DatasetID (Dataset util))) q in
  q.

Definition multipleRows : error := errors.New "multiple row data".

(** QueryAndParse executes a query that should return a single row, with
    column labels matching the qfield tags in the provided model struct. *)
Definition QueryAndParse (util : TableUtil) (q : string) (model : Model)
  : Go (Model * option error) :=
  let query := ResultQuery util q false in
  r <- Query_Read query ;;
  match r with
  | inr err => ret (model, Some err)
  | inl it =>
      (* We expect a single result row, so proceed accordingly. *)
      withLocal (VMap None) (fun row =>
        r1 <- RowIterator_Next it (VPtr (Some row)) ;;
        let '(err, it) := r1 in
        match err with
        | Some e => ret (model, Some e)
        | None =>
            h <- getHeap ;;
            parsed <- liftResult (parseModel (asGoMap (h !! row)) model) ;;
            let '(result, err) := parsed in
            match err with
            | Some e => ret (model, Some e)
            | None =>
                (* If there are more rows, then something is wrong. *)
                r2 <- RowIterator_Next it (VPtr (Some row)) ;;
                let '(err, it) := r2 in
                if negb (isDone err) then ret (model, Some multipleRows)
                else ret (result, None)
            end
        end)
  end.

(** The text package fmt prints for a value is not modelled: it is a
    parameter of AltQueryAndParse, which only logs it. *)
Section Logging.

Variable sprintln : gmap loc Value -> Value -> string.

(** fmt prints a reflect.Value as the value it holds. *)
Definition sprintlnReflect (h : gmap loc Value) (v : reflect.rValue) : string :=
  match v with
  | Some x => sprintln h x
  | None => "<invalid reflect.Value>" ++ String (ascii_of_nat 10) EmptyString
  end.

(** Value.Elem: what a pointer points to, the zero Value for a nil
    pointer; a panic for anything that is no pointer. *)
Definition valueElem (h : gmap loc Value) (v : reflect.rValue) : Go reflect.rValue :=
  match v with
  | Some (VPtr None) => ret None
  | Some (VPtr (Some a)) => ret (h !! a)
  | Some _ => panic "reflect: call of reflect.Value.Elem on a Value that is no pointer"
  | None => panic "reflect: call of reflect.Value.Elem on zero Value"
  end.

(** AltQueryAndParse executes a query that should return a single row,
    loaded by the cursor itself into what model points to. *)
Definition AltQueryAndParse (util : TableUtil) (q : string) (model : Value)
  : Go (Value * option error) :=
  let query := ResultQuery util q false in
  r <- Query_Read query ;;
  match r with
  | inr err => ret (model, Some err)
  | inl it =>
      (* We expect a single result row, so proceed accordingly. *)
      r1 <- RowIterator_Next it model ;;
      let '(err, it) := r1 in
      h <- getHeap ;;
      log.Println (sprintln h model) ;;
      elem <- valueElem h (reflect.ValueOf model) ;;
      log.Println (sprintlnReflect h elem) ;;
      match err with
      | Some e => ret (model, Some e)
      | None =>
          (* If there are more rows, then something is wrong. *)
          withLocal (VMap None) (fun row =>
            r2 <- RowIterator_Next it (VPtr (Some row)) ;;
            let '(err, it) := r2 in
            if negb (isDone err) then ret (model, Some multipleRows)
            else ret (model, None))
      end
  end.

End Logging.

End bqutil.

(** ** Package bqfake: the counting transport *)

Module http.

Record Request : Type := mkRequest {
  Method : string;
  URL : string
}.

Record Response : Type := mkResponse {
  Status : string;
  StatusCode : Z;
  Body : string
}.

Definition StatusOK : Z := 200.

End http.

Module bqfake.

(** int32 arithmetic wraps around. *)
Definition wrap32 (n : Z) : Z := (n + 2 ^ 31) mod 2 ^ 32 - 2 ^ 31.

(** CountingTransport counts calls, and returns OK and empty body. *)
Record CountingTransport : Type := mkCountingTransport {
  count : Z;
  reqs : list http.Request
}.

(** Count returns the client call count. *)
Definition Count (ct : CountingTransport) : Z := count ct.

(** Requests returns the requests saved so far. *)
Definition Requests (ct : CountingTransport) : list http.Request := reqs ct.

(** RoundTrip implements the RoundTripper interface: the response, the
    error, and the transport afterwards. *)
Definition RoundTrip (ct : CountingTransport) (req : http.Request)
  : (http.Response * option error) * CountingTransport :=
  let ct := {| count := wrap32 (count ct + 1); reqs := reqs ct |} in
  (* Create an empty response with StatusOK *)
  let resp := {| http.Status := EmptyString; http.StatusCode := http.StatusOK;
                 http.Body := EmptyString |} in
  (* Save the request for testing. *)
  let ct := {| count := count ct; reqs := reqs ct ++ [req] |} in
  ((resp, None), ct).

(** The transport DryRunClient creates and hands to its client. *)
Definition newTransport : CountingTransport := {| count := 0; reqs := [] |}.

(** The transport after a run of round trips, and the responses given. *)
Fixpoint roundTrips (ct : CountingTransport) (sent : list http.Request)
  : list (http.Response * option error) * CountingTransport :=
  match sent with
  | [] => ([], ct)
  | req :: rest =>
      let '(answer, ct1) := RoundTrip ct req in
      let '(answers, ct2) := roundTrips ct1 rest in
      (answer :: answers, ct2)
  end.

(** dryRunHTTP.Get: an empty 200 response whatever the address. *)
Definition Get (url : string) : http.Response * option error :=
  ({| http.Status := "200 OK"; http.StatusCode := 200; http.Body := EmptyString |}, None).

End bqfake.

(** ** More vocabulary and sample data *)

(** What a read into a map buffer reports on cursor it. *)
Definition reported (it : bigquery.RowIterator) : option error :=
  match it with
  | [] => Some iterator.Done
  | bigquery.Delivers _ :: _ => None
  | bigquery.Breaks e :: _ => Some e
  end.

(** The Go map the first read into a nil map buffer makes of row r. *)
Definition rowMap (r : bigquery.Row) : gmap string Value :=
  asGoMap (Some (VMap (Some (bigquery.mapLoad r None)))).

(** The configuration the bqutil QueryAndParse reads with. *)
Definition utilConfig (util : bqutil.TableUtil) (q : string) : bigquery.QueryConfig :=
  bigquery.Config (bqutil.ResultQuery util q false).

(** The dedup query around its two operands. *)
Definition dedupHead : string :=
  bqext.LF ++ bqext.TAB ++ "#standardSQL" ++ bqext.LF
  ++ bqext.TAB ++ "# Delete all duplicate rows based on test_id" ++ bqext.LF
  ++ bqext.TAB ++ "SELECT * except (row_number)" ++ bqext.LF
  ++ bqext.TAB ++ "FROM (" ++ bqext.LF
  ++ bqext.TAB ++ "  SELECT *, ROW_NUMBER() OVER (".

Definition dedupMiddle : string :=
  " row_number" ++ bqext.LF ++ bqext.TAB ++ "  ".

Definition dedupTail : string :=
  ")" ++ bqext.LF ++ bqext.TAB ++ "WHERE row_number = 1".

(** The bqext handle on the same client and dataset as a bqutil one. *)
Definition asDataset (util : bqutil.TableUtil) : bqext.Dataset :=
  {| bqext.BqClient := bqutil.BqClient util; bqext.BqDataset := bqutil.Dataset util |}.

(** The calls that only read: Query.Read and RowIterator.Next. *)
Definition readsOnly (c : Call) : bool :=
  match c with
  | CallRead _ | CallNext _ => true
  | CallRun _ | CallWait _ => false
  end.

(** The value parseModel gives a field: the column under its tag, or the
    zero value of its type. *)
Definition parsedField (row : gmap string Value) (f : bqutil.StructField) : Value :=
  default (bqutil.zeroOf (bqutil.Type_ f)) (row !! bqutil.Qfield f).

(** The column under the tag of field f cannot be stored in f. *)
Definition refusedBy (row : gmap string Value) (f : bqutil.StructField) : Prop :=
  exists v : Value,
    row !! bqutil.Qfield f = Some v
    /\ (bqutil.IsExported f = false \/ v = VNil
        \/ bqutil.assignable v (bqutil.Type_ f) = false).

Module fixture.

(** A model struct with qfield tags, one field untagged. *)
Definition partitionType : list bqutil.StructField :=
  [ {| bqutil.Name := "PartitionID"; bqutil.IsExported := true;
       bqutil.Qfield := "partition_id"; bqutil.Type_ := bqutil.TString |};
    {| bqutil.Name := "CreationTime"; bqutil.IsExported := true;
       bqutil.Qfield := "creation_time"; bqutil.Type_ := bqutil.TTime |};
    {| bqutil.Name := "Note"; bqutil.IsExported := true;
       bqutil.Qfield := EmptyString; bqutil.Type_ := bqutil.TInterface |} ].

Definition partitionModel : bqutil.Model :=
  bqutil.Struct partitionType [VString "stale"; VTime 1; VInt 3].

Definition partitionRow : bigquery.Row :=
  [("partition_id", VString "20230101"); ("creation_time", VTime 5);
   ("last_modified_time", VTime 7)].

Definition illTypedRow : bigquery.Row := [("partition_id", VInt 20230101)].

Definition client : bigquery.Client :=
  {| bigquery.readAnswer := fun c =>
       let text := bigquery.Q c in
       if String.eqb text "one" then inl [bigquery.Delivers partitionRow]
       else if String.eqb text "two"
            then inl [bigquery.Delivers partitionRow; bigquery.Delivers illTypedRow]
       else if String.eqb text "ill-typed" then inl [bigquery.Delivers illTypedRow]
       else if String.eqb text "down" then inr (apiError 503 "backend unavailable")
       else if String.eqb text "flaky"
            then inl [bigquery.Delivers sample.oneRow; bigquery.Breaks (apiError 503 "backend unavailable")]
       else inl [];
     bigquery.runAnswer := fun _ => inr (apiError 403 "jobs.create denied");
     bigquery.waitResult := fun _ => inr (apiError 500 "unreachable") |}.

Definition util : bqutil.TableUtil :=
  {| bqutil.BqClient := client;
     bqutil.Dataset := {| bigquery.ProjectID := "project"; bigquery.DatasetID := "dataset" |} |}.

Definition dataset : bqext.Dataset :=
  {| bqext.BqClient := client;
     bqext.BqDataset := {| bigquery.ProjectID := "project"; bigquery.DatasetID := "dataset" |} |}.

(** A printer that tells a pointer from whatever else. *)
Definition sprintln (h : gmap loc Value) (v : Value) : string :=
  match v with
  | VPtr _ => "&{...}"
  | _ => "{...}"
  end.

Definition get (url : string) : http.Request := {| http.Method := "GET"; http.URL := url |}.




End fixture.

(** ** A service that evaluates the filter of the partition query *)

Module legacy.

(** What is left of s after its first n characters. *)
Fixpoint skip (n : nat) (s : string) : string :=
  match n, s with
  | S n', String _ s' => skip n' s'
  | _, _ => s
  end.

(** The text that follows the first occurrence of sub in s. *)
Fixpoint following (sub s : string) : option string :=
  if strings.HasPrefix s sub then Some (skip (String.length sub) s)
  else match s with
       | EmptyString => None
       | String _ s' => following sub s'
       end.

(** The words of a filter: names, literals between double quotes, and
    the equals sign. *)
Inductive token : Type :=
  | Name (s : string)
  | Literal (s : string)
  | Equals.

Inductive mode : Type :=
  | Between
  | InName (acc : string)
  | InLiteral (acc : string)
  | Escaped (acc : string).

Definition isSpace (c : ascii) : bool :=
  let n := nat_of_ascii c in
  (n =? 32)%nat || (n =? 9)%nat || (n =? 10)%nat || (n =? 13)%nat.
Definition isQuote (c : ascii) : bool := (nat_of_ascii c =? 34)%nat.
Definition isBackslash (c : ascii) : bool := (nat_of_ascii c =? 92)%nat.
Definition isEquals (c : ascii) : bool := (nat_of_ascii c =? 61)%nat.

Definition push (acc : string) (c : ascii) : string := acc ++ String c EmptyString.

(** A literal runs from a double quote to the next one that no backslash
    precedes; a text that ends inside a literal has no reading. *)
Fixpoint lex (m : mode) (s : string) : option (list token) :=
  match s with
  | EmptyString =>
      match m with
      | Between => Some []
      | InName acc => Some [Name acc]
      | InLiteral _ | Escaped _ => None
      end
  | String c s' =>
      match m with
      | Escaped acc => lex (InLiteral (push acc c)) s'
      | InLiteral acc =>
          if isQuote c then option_map (cons (Literal acc)) (lex Between s')
          else if isBackslash c then lex (Escaped acc) s'
          else lex (InLiteral (push acc c)) s'
      | InName acc =>
          if isSpace c then option_map (cons (Name acc)) (lex Between s')
          else if isEquals c
               then option_map (fun ts => Name acc :: Equals :: ts) (lex Between s')
          else if isQuote c then option_map (cons (Name acc)) (lex (InLiteral EmptyString) s')
          else lex (InName (push acc c)) s'
      | Between =>
          if isSpace c then lex Between s'
          else if isEquals c then option_map (cons Equals) (lex Between s')
          else if isQuote c then lex (InLiteral EmptyString) s'
          else lex (InName (String c EmptyString)) s'
      end
  end.

(** What is compared: the partition_id column or a literal. *)
Inductive operand : Type :=
  | Column
  | Text (s : string).

Definition operandOf (t : token) : option operand :=
  match t with
  | Name n => if strings.EqualFold n "partition_id" then Some Column else None
  | Literal s => Some (Text s)
  | Equals => None
  end.

(** A filter is one comparison or several joined by OR. *)
Fixpoint parse (ts : list token) : option (list (operand * operand)) :=
  match ts with
  | a :: Equals :: b :: rest =>
      match operandOf a, operandOf b with
      | Some x, Some y =>
          match rest with
          | [] => Some [(x, y)]
          | Name n :: rest' =>
              if strings.EqualFold n "or" then option_map (cons (x, y)) (parse rest')
              else None
          | _ => None
          end
      | _, _ => None
      end
  | _ => None
  end.

Definition valueOf (id : string) (o : operand) : string :=
  match o with
  | Column => id
  | Text s => s
  end.

(** The filter holds of a partition when one of its comparisons does. *)
Definition holds (comparisons : list (operand * operand)) (id : string) : bool :=
  existsb (fun c => String.eqb (valueOf id (fst c)) (valueOf id (snd c))) comparisons.

(** The partitions of the one table the service has, mytable. *)
Definition partitions : list (string * (Z * Z)) := [("20230101", (5%Z, 7%Z))].

Definition invalidQuery : error := apiError 400 "Invalid query".
Definition notFound : error := apiError 404 "Not found: Table".

(** The service answers a query over the partition summary of mytable
    with the entries its filter holds of. *)
Definition answer (text : string) : bigquery.RowIterator + error :=
  if strings.Contains text "[mytable$__PARTITIONS_SUMMARY__]"
  then match following "where " text with
       | None => inr invalidQuery
       | Some condition =>
           match lex Between condition with
           | None => inr invalidQuery
           | Some tokens =>
               match parse tokens with
               | None => inr invalidQuery
               | Some comparisons =>
                   inl (map (fun entry => bigquery.Delivers (summaryRow (fst entry) (snd entry)))
                          (List.filter (fun entry => holds comparisons (fst entry)) partitions))
               end
           end
       end
  else inr notFound.

Definition client : bigquery.Client :=
  {| bigquery.readAnswer := fun c => answer (bigquery.Q c);
     bigquery.runAnswer := fun _ => inr invalidQuery;
     bigquery.waitResult := fun _ => inr invalidQuery |}.

Definition dataset : bqext.Dataset :=
  {| bqext.BqClient := client;
     bqext.BqDataset := {| bigquery.ProjectID := "project"; bigquery.DatasetID := "dataset" |} |}.

(** A partition id that closes the literal it is put in and goes on:
    x, a double quote, OR, and an equation of two literals 1 whose last
    quote is the one the template supplies. *)
Definition spliced : string :=
  "x" ++ bqext.QUOTE ++ " OR " ++ bqext.QUOTE ++ "1" ++ bqext.QUOTE ++ " = " ++ bqext.QUOTE ++ "1".



End legacy.

(** ** Properties of the string helpers *)

Lemma HasPrefix_beginsWith (s prefix : string) :
  strings.HasPrefix s prefix = true <-> beginsWith prefix s.
Proof.
  revert s. induction prefix as [|c prefix IH]; intros s; simpl.
  - split; [intros _; exists s; reflexivity | intros _; reflexivity].
  - destruct s as [|d s].
    + split; [discriminate | intros [rest Hrest]; discriminate].
    + rewrite andb_true_iff, IH, Ascii.eqb_eq. split.
      * intros [-> [rest ->]]. exists rest. reflexivity.
      * intros [rest Hrest]. injection Hrest as -> ->. split; [reflexivity | exists rest; reflexivity].
Qed.

Lemma Contains_substring (s sub : string) :
  strings.Contains s sub = true <-> substring sub s.
Proof.
  induction s as [|d s IH].
  - cbn [strings.Contains]. rewrite orb_false_r, HasPrefix_beginsWith. split.
    + intros [rest ->]. exists EmptyString, rest. reflexivity.
    + intros [before [after Heq]]. destruct before as [|b before]; [|discriminate].
      exists after. exact Heq.
  - cbn [strings.Contains]. rewrite orb_true_iff, IH, HasPrefix_beginsWith. split.
    + intros [[rest ->] | [before [after ->]]].
      * exists EmptyString, rest. reflexivity.
      * exists (String d before), after. reflexivity.
    + intros [before [after Heq]]. destruct before as [|b before].
      * left. exists after. exact Heq.
      * right. injection Heq as -> ->. exists before, after. reflexivity.
Qed.

Lemma Contains_false_substring (s sub : string) :
  strings.Contains s sub = false <-> ~ substring sub s.
Proof.
  rewrite <- Contains_substring. destruct (strings.Contains s sub); split; intros H; easy.
Qed.

(** ** Heap facts *)

Lemma fresh_unused (h : gmap loc Value) : h !! fresh (dom h) = None.
Proof. apply not_elem_of_dom, is_fresh. Qed.

(** A read into a map buffer touches no location but the buffer. *)
Lemma next_map_buffer (row : loc) (m : option (list (string * Value)))
    (it : bigquery.RowIterator) (h : gmap loc Value) :
  h !! row = None ->
  delete row (snd (bigquery.next (VPtr (Some row)) it (<[row := VMap m]> h))) = h.
Proof.
  intros Hrow. unfold bigquery.next, bigquery.destination.
  rewrite lookup_insert_eq. cbn [bigquery.loaderFor].
  destruct it as [|[r|e] rest]; cbn [snd].
  - apply delete_insert_id, Hrow.
  - rewrite insert_insert_eq. apply delete_insert_id, Hrow.
  - apply delete_insert_id, Hrow.
Qed.

(** What a read into a map buffer reports, and what it leaves of the cursor. *)
Lemma next_map_report (row : loc) (m : option (list (string * Value)))
    (it : bigquery.RowIterator) (h : gmap loc Value) :
  fst (bigquery.next (VPtr (Some row)) it (<[row := VMap m]> h))
  = (match it with
     | [] => Some iterator.Done
     | bigquery.Delivers _ :: _ => None
     | bigquery.Breaks e :: _ => Some e
     end, tail it).
Proof.
  unfold bigquery.next, bigquery.destination.
  rewrite lookup_insert_eq. cbn [bigquery.loaderFor].
  destruct it as [|[r|e] rest]; reflexivity.
Qed.

(** A read into a struct held at p. *)
Lemma next_struct (p : loc) (fields : list (string * Value))
    (it : bigquery.RowIterator) (h : gmap loc Value) :
  h !! p = Some (VStruct fields) ->
  bigquery.next (VPtr (Some p)) it h
  = match it with
    | [] => (Some iterator.Done, [], h)
    | bigquery.Breaks e :: rest => (Some e, rest, h)
    | bigquery.Delivers r :: rest =>
        (snd (bigquery.runLoad r fields), rest,
         <[p := VStruct (fst (bigquery.runLoad r fields))]> h)
    end.
Proof.
  intros Hp. unfold bigquery.next, bigquery.destination. rewrite Hp.
  cbn [bigquery.loaderFor].
  destruct it as [|[r|e] rest]; reflexivity.
Qed.

(** The struct loader succeeds exactly when loading reports no error, with
    what loading left in the struct. *)
Lemma structLoad_inl (r : bigquery.Row) (fields fields' : list (string * Value)) :
  bigquery.structLoad r fields = inl fields' <-> bigquery.runLoad r fields = (fields', None).
Proof.
  unfold bigquery.structLoad.
  destruct (bigquery.runLoad r fields) as [fs [e|]]; split; intros H; congruence.
Qed.


(** Whatever is of struct kind has a loader. *)
Lemma loaderFor_struct (x : Value) :
  reflect.kindOf x = reflect.Struct -> exists load, bigquery.loaderFor x = Some load.
Proof. destruct x; cbn; intros H; try discriminate; eauto. Qed.

(** A read into a destination held at p. *)
Lemma next_loader (p : loc) (x : Value) (load : bigquery.Row -> Value * option error)
    (it : bigquery.RowIterator) (h : gmap loc Value) :
  h !! p = Some x ->
  bigquery.loaderFor x = Some load ->
  bigquery.next (VPtr (Some p)) it h
  = match it with
    | [] => (Some iterator.Done, [], h)
    | bigquery.Breaks e :: rest => (Some e, rest, h)
    | bigquery.Delivers r :: rest => (snd (load r), rest, <[p := fst (load r)]> h)
    end.
Proof.
  intros Hp Hload. unfold bigquery.next, bigquery.destination. rewrite Hp, Hload.
  destruct it as [|[r|e] rest]; reflexivity.
Qed.

(** ** QueryAndParse, step by step *)

#[local] Arguments bqext.ResultQuery : simpl never.
#[local] Arguments bqext.DestinationQuery : simpl never.
#[local] Arguments fmt.Sprintf : simpl never.
#[local] Arguments strings.Contains : simpl never.
#[local] Arguments strings.HasPrefix : simpl never.

Lemma ResultQuery_client (dsExt : bqext.Dataset) (query : string) (dryRun : bool) :
  bigquery.client (bqext.ResultQuery dsExt query dryRun) = bqext.BqClient dsExt.
Proof. unfold bqext.ResultQuery. destruct (strings.HasPrefix query "#legacySQL"); reflexivity. Qed.

Lemma DestinationQuery_client (dsExt : bqext.Dataset) (query : string)
    (dest : option bigquery.Table) :
  bigquery.client (bqext.DestinationQuery dsExt query dest) = bqext.BqClient dsExt.
Proof. destruct dest; reflexivity. Qed.

(** The dialect flag is the prefix test. *)
Lemma ResultQuery_flag (dsExt : bqext.Dataset) (query : string) (dryRun : bool) :
  bigquery.UseLegacySQL (bigquery.Config (bqext.ResultQuery dsExt query dryRun))
  = strings.HasPrefix query "#legacySQL".
Proof. unfold bqext.ResultQuery. destruct (strings.HasPrefix query "#legacySQL"); reflexivity. Qed.

Section SingleRow.

Variable dsExt : bqext.Dataset.
Variable q : string.

(** With a pointer to a struct the call reads, loads the first row and
    probes for a second one. *)
Lemma QueryAndParse_validated (structPtr : Value) (w : World) :
  pointsToStruct (heap w) structPtr ->
  bqext.QueryAndParse dsExt q structPtr w =
    match bigquery.readAnswer (bqext.BqClient dsExt) (readConfig dsExt q) with
    | inr err => (Returns (Some err), after w (heap w) [CallRead (readConfig dsExt q)])
    | inl it =>
        match bigquery.next structPtr it (heap w) with
        | (Some e, _, h1) =>
            (Returns (Some e), after w h1 [CallRead (readConfig dsExt q); CallNext structPtr])
        | (None, it1, h1) =>
            let row := fresh (dom h1) in
            let extra := bigquery.next (VPtr (Some row)) it1 (<[row := VMap None]> h1) in
            (Returns (if isDone (fst (fst extra)) then None else Some bqext.multipleRows),
             after w h1 [CallRead (readConfig dsExt q); CallNext structPtr; CallNext (VPtr (Some row))])
        end
    end.
Proof.
  intros (p & x & -> & Hp & Hk).
  unfold bqext.QueryAndParse, bind, typeKind, ret, getHeap, Query_Read, RowIterator_Next,
    record, withLocal, bind, ret, setHeap, after.
  cbn. rewrite Hp. cbn. rewrite Hk. cbn. fold (readConfig dsExt q). rewrite ResultQuery_client.
  destruct (bigquery.readAnswer (bqext.BqClient dsExt) (readConfig dsExt q)) as [it|err]; [|reflexivity].
  cbn.
  destruct (bigquery.next (VPtr (Some p)) it (heap w)) as [[[e|] it1] h1] eqn:Hnext.
  - cbn. rewrite <- app_assoc. reflexivity.
  - cbn.
    pose proof (next_map_buffer (fresh (dom h1)) None it1 h1 (fresh_unused h1)) as Hbuf.
    destruct (bigquery.next (VPtr (Some (fresh (dom h1)))) it1
                (<[fresh (dom h1) := VMap None]> h1)) as [[err it2] h2].
    cbn in *. destruct (isDone err); cbn; rewrite Hbuf, <- !app_assoc; reflexivity.
Qed.

End SingleRow.

(** ** The single-row contract *)

(** C1, with the loading of the row made explicit: for a target that
    points to anything of struct kind and a query the service answers with
    cursor [it], the library has a loader for the target, and: when the cursor
    holds exactly one row, QueryAndParse returns what loading the row
    reports, and when that is no error the target holds what the loader made
    of the row; when the cursor holds no row, iterator.Done is returned, which
    is the NoRows kind, and the heap, the target with it, is as before; when
    the cursor holds two rows or more, an error is returned in every case,
    the multiple-rows error when the first row loads and the loader's error
    otherwise. *)
Theorem QueryAndParse_row_count (dsExt : bqext.Dataset) (q : string) (p : loc)
    (x : Value) (w : World) (it : bigquery.RowIterator) :
  heap w !! p = Some x ->
  reflect.kindOf x = reflect.Struct ->
  bigquery.readAnswer (bqext.BqClient dsExt) (readConfig dsExt q) = inl it ->
  let outcome := bqext.QueryAndParse dsExt q (VPtr (Some p)) w in
  exists load, bigquery.loaderFor x = Some load
  /\ (forall r, it = [bigquery.Delivers r] ->
      fst outcome = Returns (snd (load r))
      /\ (snd (load r) = None -> heap (snd outcome) !! p = Some (fst (load r))))
  /\ (it = [] ->
      fst outcome = Returns (Some iterator.Done)
      /\ bqext.kindOfError iterator.Done = bqext.NoRows
      /\ heap (snd outcome) = heap w)
  /\ (forall r1 r2 rest, it = bigquery.Delivers r1 :: bigquery.Delivers r2 :: rest ->
      bqext.kindOfError bqext.multipleRows = bqext.MultipleRows
      /\ fst outcome = Returns (Some (match snd (load r1) with
                                      | None => bqext.multipleRows
                                      | Some e => e
                                      end))).
Proof.
  intros Hp Hk Hread outcome.
  destruct (loaderFor_struct x Hk) as [load Hload]. exists load. split; [exact Hload|].
  assert (Hptr : pointsToStruct (heap w) (VPtr (Some p))) by (exists p, x; auto).
  subst outcome. rewrite (QueryAndParse_validated dsExt q _ w Hptr), Hread.
  rewrite (next_loader p x load it (heap w) Hp Hload).
  split; [|split].
  - intros r ->. destruct (snd (load r)) as [e|] eqn:He; cbn.
    + split; [reflexivity|discriminate].
    + rewrite next_map_report. split; [reflexivity|]. intros _. apply lookup_insert_eq.
  - intros ->. cbn. auto.
  - intros r1 r2 rest ->. split; [reflexivity|].
    destruct (snd (load r1)) as [e|]; cbn; [reflexivity|].
    rewrite next_map_report. reflexivity.
Qed.

(** C1, an input: the sample service answers the text one with a single
    well-typed row. *)
Lemma QueryAndParse_row_count_witness :
  fst (bqext.QueryAndParse sample.dataset "one" (VPtr (Some sample.target)) sample.world)
  = Returns None
  /\ heap (snd (bqext.QueryAndParse sample.dataset "one" (VPtr (Some sample.target)) sample.world))
       !! sample.target = Some (VStruct sample.oneRow).
Proof.
  destruct (QueryAndParse_row_count sample.dataset "one" sample.target
              (VStruct sample.targetFields) sample.world [bigquery.Delivers sample.oneRow]
              eq_refl eq_refl eq_refl) as (load & Hload & Hone & _).
  injection Hload as <-.
  destruct (Hone sample.oneRow eq_refl) as [Hreturn Hheap].
  split; [exact Hreturn|exact (Hheap eq_refl)].
Defined.

(** C1 as stated fails: the sample service answers the text ill-typed with
    a cursor of exactly one row, whose PartitionID column is an integer; the
    call returns the loader's error and leaves the target as it was. *)
Lemma QueryAndParse_one_row_ill_typed :
  bigquery.readAnswer (bqext.BqClient sample.dataset) (readConfig sample.dataset "ill-typed")
  = inl [bigquery.Delivers sample.illTypedRow]
  /\ heap sample.world !! sample.target = Some (VStruct sample.targetFields)
  /\ fst (bqext.QueryAndParse sample.dataset "ill-typed" (VPtr (Some sample.target)) sample.world)
     = Returns (Some (bigquery.mismatch "PartitionID"))
  /\ fst (bqext.QueryAndParse sample.dataset "ill-typed" (VPtr (Some sample.target)) sample.world)
     <> Returns None
  /\ heap (snd (bqext.QueryAndParse sample.dataset "ill-typed" (VPtr (Some sample.target))
                  sample.world)) !! sample.target
     = Some (VStruct sample.targetFields).
Proof. repeat split; try (vm_compute; reflexivity). vm_compute. discriminate. Qed.

(** C4: once the first row is loaded into the target, QueryAndParse makes
    exactly one more read, into a map buffer of its own that starts nil and
    is gone when the call returns; it returns the multiple-rows error exactly
    when that read reports anything but iterator.Done, and no error exactly
    when it reports iterator.Done. *)
Theorem QueryAndParse_probes_once (dsExt : bqext.Dataset) (q : string) (structPtr : Value)
    (w : World) (it it1 : bigquery.RowIterator) (h1 : gmap loc Value) :
  pointsToStruct (heap w) structPtr ->
  bigquery.readAnswer (bqext.BqClient dsExt) (readConfig dsExt q) = inl it ->
  bigquery.next structPtr it (heap w) = (None, it1, h1) ->
  let row := fresh (dom h1) in
  let extra := bigquery.next (VPtr (Some row)) it1 (<[row := VMap None]> h1) in
  let outcome := bqext.QueryAndParse dsExt q structPtr w in
  calls (snd outcome)
  = calls w ++ [CallRead (readConfig dsExt q); CallNext structPtr; CallNext (VPtr (Some row))]
  /\ h1 !! row = None
  /\ heap (snd outcome) = h1
  /\ snd (fst extra) = tail it1
  /\ (fst outcome = Returns (Some bqext.multipleRows) <-> fst (fst extra) <> Some iterator.Done)
  /\ (fst outcome = Returns None <-> fst (fst extra) = Some iterator.Done).
Proof.
  intros Hptr Hread Hnext row extra outcome.
  subst outcome. rewrite (QueryAndParse_validated dsExt q _ w Hptr), Hread, Hnext.
  fold row. fold extra. cbn [fst snd after calls heap].
  split; [reflexivity|]. split; [apply fresh_unused|]. split; [reflexivity|].
  split; [subst extra; rewrite next_map_report; reflexivity|].
  change (bigquery.next (VPtr (Some row)) it1 (<[row := VMap None]> h1)) with extra.
  unfold iterator.Done, bqext.multipleRows, errors.New.
  destruct (fst (fst extra)) as [[text| |code text]|]; cbn; split; split;
    intros H; congruence.
Qed.

(** C4, an input: the text two is answered with two rows, so the extra
    read delivers one and the call fails. *)
Lemma QueryAndParse_probes_once_witness :
  fst (bqext.QueryAndParse sample.dataset "two" (VPtr (Some sample.target)) sample.world)
  = Returns (Some bqext.multipleRows).
Proof.
  pose proof (QueryAndParse_probes_once sample.dataset "two" (VPtr (Some sample.target))
                sample.world [bigquery.Delivers sample.oneRow; bigquery.Delivers sample.otherRow]
                [bigquery.Delivers sample.otherRow]
                (<[sample.target := VStruct sample.oneRow]> (heap sample.world))) as H.
  destruct H as (_ & _ & _ & _ & [_ Hmany] & _).
  - exists sample.target, (VStruct sample.targetFields). repeat split.
  - reflexivity.
  - reflexivity.
  - apply Hmany. vm_compute. discriminate.
Defined.

(** C9 at the nil argument: for every dataset handle, query text and
    world, QueryAndParse called with the nil interface as its target panics
    inside reflection (Value.Type on the zero Value) instead of returning its
    argument error; the world is as before, so nothing reached the service. *)
Theorem QueryAndParse_nil_target_panics (dsExt : bqext.Dataset) (q : string) (w : World) :
  bqext.QueryAndParse dsExt q VNil w
  = (Panics "reflect: call of reflect.Value.Type on zero Value", w).
Proof. reflexivity. Qed.

(** Every other argument that is not a pointer to a struct (a value that is
    no pointer, a nil pointer, a pointer to something that is no struct) is
    answered with the argument error, and the world is as before: no query
    was built into a call, nothing was read. *)
Theorem QueryAndParse_refuses_ill_typed (dsExt : bqext.Dataset) (q : string)
    (structPtr : Value) (w : World) :
  structPtr <> VNil ->
  ~ pointsToStruct (heap w) structPtr ->
  bqext.QueryAndParse dsExt q structPtr w = (Returns (Some bqext.badArgument), w)
  /\ bqext.kindOfError bqext.badArgument = bqext.BadArgument.
Proof.
  intros Hnil Hstruct. split; [|reflexivity].
  destruct structPtr as [| | | | | | |[p|]]; try congruence; try reflexivity.
  unfold bqext.QueryAndParse, bind, typeKind, ret, getHeap. cbn.
  destruct (heap w !! p) as [v|] eqn:Hp; [|reflexivity].
  cbn. destruct (reflect.kindOf v) eqn:Hk; try reflexivity.
  exfalso. apply Hstruct. exists p, v. auto.
Qed.

(** An input: a struct passed by value instead of by address. *)
Lemma QueryAndParse_refuses_ill_typed_witness :
  bqext.QueryAndParse sample.dataset "one" (VStruct sample.targetFields) sample.world
  = (Returns (Some bqext.badArgument), sample.world).
Proof.
  apply (QueryAndParse_refuses_ill_typed sample.dataset "one" (VStruct sample.targetFields)
           sample.world).
  - discriminate.
  - intros (p & x & Hptr & _). discriminate Hptr.
Defined.

(** ** Dedup, step by step *)

Section DedupSteps.

Variable dsExt : bqext.Dataset.
Variables src dedupOn : string.
Variable overwrite : bool.
Variables project dataset table : string.

(** Without the partition qualifier Dedup returns at once. *)
Lemma Dedup_refused (w : World) :
  strings.Contains table "$" = false ->
  bqext.Dedup dsExt src dedupOn overwrite project dataset table w
  = (Returns (None, Some bqext.missingPartition), w).
Proof. intros Hno. unfold bqext.Dedup. rewrite Hno. reflexivity. Qed.

(** With it, Dedup runs the query and, when a job was started, waits for
    it and hands back what Wait gave. *)
Lemma Dedup_submitted (w : World) :
  strings.Contains table "$" = true ->
  bqext.Dedup dsExt src dedupOn overwrite project dataset table w
  = match bigquery.runAnswer (bqext.BqClient dsExt) (dedupConfig dsExt src dedupOn overwrite project dataset table) with
    | inr err =>
        (Returns (None, Some err),
         {| heap := heap w; calls := calls w ++ [CallRun (dedupConfig dsExt src dedupOn overwrite project dataset table)];
            logged := logged w ++ [(dedupAnnouncement dedupOn table)] |})
    | inl job =>
        (Returns (bigquery.waitAnswer (bqext.BqClient dsExt) job),
         {| heap := heap w; calls := calls w ++ [CallRun (dedupConfig dsExt src dedupOn overwrite project dataset table); CallWait job];
            logged := logged w ++ [(dedupAnnouncement dedupOn table); ("JobID: " ++ bigquery.ID job ++ bqext.LF)%string] |})
    end.
Proof.
  intros Hyes. unfold bqext.Dedup, dedupConfig, dedupAnnouncement.
  rewrite Hyes. cbn [negb]. cbv zeta.
  unfold bind, log.Println, Query_Run, Job_Wait, record, ret, bind.
  cbn [heap calls logged].
  assert (Hclient : forall q0 : bigquery.Query,
             bigquery.client
               (if overwrite
                then bigquery.withConfig (bigquery.setWriteDisposition bigquery.WriteTruncate) q0
                else q0) = bigquery.client q0)
    by (intros q0; destruct overwrite; reflexivity).
  rewrite Hclient, DestinationQuery_client.
  destruct (bigquery.runAnswer (bqext.BqClient dsExt) _) as [job|err]; [|reflexivity].
  cbn [heap calls logged].
  destruct (bigquery.waitAnswer (bqext.BqClient dsExt) job) as [status [e|]];
    rewrite <- !app_assoc; reflexivity.
Qed.

End DedupSteps.

(** ** The partition qualifier, the write disposition and the job status *)

(** C2: when the destination table name does not contain the substring $,
    Dedup returns the missing-partition error with no status, and the world
    is untouched: no job submitted, no query read, nothing logged.  When the
    name contains $, the first thing Dedup does to the service is run the
    destination query it built. *)
Theorem Dedup_partition_qualifier (dsExt : bqext.Dataset) (src dedupOn : string)
    (overwrite : bool) (project dataset table : string) (w : World) :
  let outcome := bqext.Dedup dsExt src dedupOn overwrite project dataset table w in
  (~ substring "$" table ->
     outcome = (Returns (None, Some bqext.missingPartition), w)
     /\ bqext.kindOfError bqext.missingPartition = bqext.MissingPartitionQualifier)
  /\ (substring "$" table ->
      exists rest : list Call,
        calls (snd outcome)
        = calls w ++ CallRun (dedupConfig dsExt src dedupOn overwrite project dataset table) :: rest).
Proof.
  intros outcome. subst outcome. split.
  - intros Hno. apply Contains_false_substring in Hno.
    rewrite Dedup_refused by exact Hno. split; reflexivity.
  - intros Hyes. apply Contains_substring in Hyes.
    rewrite Dedup_submitted by exact Hyes.
    destruct (bigquery.runAnswer _ _) as [job|err]; cbn [snd calls].
    + exists [CallWait job]. reflexivity.
    + exists []. reflexivity.
Qed.

(** C2 on the two table names of the specification. *)
Lemma Dedup_partition_qualifier_witness :
  bqext.Dedup sample.dataset "src" "id" true "project" "dataset" "mytable" sample.world
  = (Returns (None, Some bqext.missingPartition), sample.world)
  /\ exists rest : list Call,
       calls (snd (bqext.Dedup sample.dataset "src" "id" true "project" "dataset"
                     "mytable$20230101" sample.world))
       = calls sample.world
         ++ CallRun (dedupConfig sample.dataset "src" "id" true "project" "dataset"
                       "mytable$20230101") :: rest.
Proof.
  split.
  - apply (Dedup_partition_qualifier sample.dataset "src" "id" true "project" "dataset"
             "mytable" sample.world).
    apply Contains_false_substring. reflexivity.
  - apply (Dedup_partition_qualifier sample.dataset "src" "id" true "project" "dataset"
             "mytable$20230101" sample.world).
    exists "mytable", "20230101". reflexivity.
Defined.

(** C7: for a destination that carries the partition qualifier, the
    configuration Dedup runs has write disposition WriteTruncate exactly when
    overwrite is true, and the empty (unset) disposition when overwrite is
    false; Dedup asks the service nothing before running it; when the
    service refuses the run its error is what Dedup returns, and when it
    accepts, what Wait reports for the job is what Dedup returns. *)
Theorem Dedup_write_disposition (dsExt : bqext.Dataset) (src dedupOn : string)
    (overwrite : bool) (project dataset table : string) (w : World) :
  substring "$" table ->
  let cfg := dedupConfig dsExt src dedupOn overwrite project dataset table in
  let outcome := bqext.Dedup dsExt src dedupOn overwrite project dataset table w in
  (exists rest : list Call, calls (snd outcome) = calls w ++ CallRun cfg :: rest)
  /\ (bigquery.WriteDisposition cfg = bigquery.WriteTruncate <-> overwrite = true)
  /\ (overwrite = false -> bigquery.WriteDisposition cfg = EmptyString)
  /\ (forall err : error,
        bigquery.runAnswer (bqext.BqClient dsExt) cfg = inr err ->
        fst outcome = Returns (None, Some err)
        /\ calls (snd outcome) = calls w ++ [CallRun cfg])
  /\ (forall job : bigquery.Job,
        bigquery.runAnswer (bqext.BqClient dsExt) cfg = inl job ->
        fst outcome = Returns (bigquery.waitAnswer (bqext.BqClient dsExt) job)).
Proof.
  intros Hyes cfg outcome. apply Contains_substring in Hyes.
  subst outcome. rewrite Dedup_submitted by exact Hyes. fold cfg.
  split; [|split; [|split; [|split]]].
  - destruct (bigquery.runAnswer _ _) as [job|err]; cbn [snd calls].
    + exists [CallWait job]. reflexivity.
    + exists []. reflexivity.
  - subst cfg. unfold dedupConfig. destruct overwrite; cbn; split; intros H;
      try reflexivity; discriminate.
  - intros ->. reflexivity.
  - intros err ->. split; reflexivity.
  - intros job ->. reflexivity.
Qed.

(** C7, an input: overwrite requested for a qualified table. *)
Lemma Dedup_write_disposition_witness :
  bigquery.WriteDisposition
    (dedupConfig sample.dataset "src" "id" true "project" "dataset" "mytable$20230101")
  = bigquery.WriteTruncate.
Proof.
  destruct (Dedup_write_disposition sample.dataset "src" "id" true "project" "dataset"
              "mytable$20230101" sample.world) as (_ & [_ Htruncate] & _).
  - exists "mytable", "20230101". reflexivity.
  - apply Htruncate. reflexivity.
Defined.

(** C3, with the two ends of a wait told apart: for a destination that
    carries the partition qualifier and a run the service accepts with a job,
    Dedup calls Run, then Wait on that job, and nothing else.  When Wait comes
    to the end of the job, Dedup returns the final status, in state Done and
    carrying the job's own error when the job failed, beside a nil error.
    When Wait fails, Dedup returns that error beside a nil status.  So the
    status is nil exactly when the error is not. *)
Theorem Dedup_returns_wait_status (dsExt : bqext.Dataset) (src dedupOn : string)
    (overwrite : bool) (project dataset table : string) (w : World) (job : bigquery.Job) :
  substring "$" table ->
  let cfg := dedupConfig dsExt src dedupOn overwrite project dataset table in
  bigquery.runAnswer (bqext.BqClient dsExt) cfg = inl job ->
  let outcome := bqext.Dedup dsExt src dedupOn overwrite project dataset table w in
  calls (snd outcome) = calls w ++ [CallRun cfg; CallWait job]
  /\ (forall jobErr : option error,
        bigquery.waitResult (bqext.BqClient dsExt) job = inl jobErr ->
        fst outcome
        = Returns (Some {| bigquery.JobState := bigquery.StateDone; bigquery.Err := jobErr |},
                   None))
  /\ (forall e : error,
        bigquery.waitResult (bqext.BqClient dsExt) job = inr e ->
        fst outcome = Returns (None, Some e))
  /\ (exists (status : option bigquery.JobStatus) (err : option error),
        fst outcome = Returns (status, err) /\ (status = None <-> err <> None)).
Proof.
  intros Hyes cfg Hrun outcome. apply Contains_substring in Hyes.
  subst outcome. rewrite Dedup_submitted by exact Hyes. fold cfg. rewrite Hrun.
  cbn [fst snd calls]. unfold bigquery.waitAnswer.
  split; [reflexivity|]. split; [|split].
  - intros jobErr ->. reflexivity.
  - intros e ->. reflexivity.
  - destruct (bigquery.waitResult (bqext.BqClient dsExt) job) as [jobErr|e].
    + eexists _, _. split; [reflexivity|]. split; intros H; [discriminate | now destruct H].
    + eexists _, _. split; [reflexivity|]. split; intros H; [discriminate | reflexivity].
Qed.

(** C3, an input: a job that ends in failure; the final status, which
    carries the failure, comes back beside a nil error. *)
Lemma Dedup_returns_wait_status_witness :
  fst (bqext.Dedup sample.failingDataset "src" "id" false "project" "dataset"
         "mytable$20230101" sample.world)
  = Returns (Some sample.failed, None).
Proof.
  destruct (Dedup_returns_wait_status sample.failingDataset "src" "id" false "project"
              "dataset" "mytable$20230101" sample.world {| bigquery.ID := "job_2" |})
    as (_ & Hended & _).
  - exists "mytable", "20230101". reflexivity.
  - reflexivity.
  - exact (Hended (Some sample.refused) eq_refl).
Defined.

(** C3 as stated fails: the service accepts the job and cannot be reached
    when Dedup waits for it; Dedup has submitted the job, and returns the
    error with a nil status beside it. *)
Lemma Dedup_error_without_status :
  bigquery.runAnswer (bqext.BqClient sample.lostDataset)
    (dedupConfig sample.lostDataset "src" "id" false "project" "dataset" "mytable$20230101")
  = inl {| bigquery.ID := "job_3" |}
  /\ calls (snd (bqext.Dedup sample.lostDataset "src" "id" false "project" "dataset"
                   "mytable$20230101" sample.world))
     = calls sample.world
       ++ [CallRun (dedupConfig sample.lostDataset "src" "id" false "project" "dataset"
                      "mytable$20230101");
           CallWait {| bigquery.ID := "job_3" |}]
  /\ fst (bqext.Dedup sample.lostDataset "src" "id" false "project" "dataset"
            "mytable$20230101" sample.world)
     = Returns (None, Some sample.unavailable).
Proof. repeat split; vm_compute; reflexivity. Qed.

(** ** The query builders *)

(** C5: the configuration ResultQuery builds has UseLegacySQL set exactly
    when the query text begins with #legacySQL; the flag is the prefix test
    and nothing else: the dataset handle and the dry-run argument have no
    part in it. *)
Theorem ResultQuery_legacy_dialect (dsExt : bqext.Dataset) (query : string) (dryRun : bool) :
  bigquery.UseLegacySQL (bigquery.Config (bqext.ResultQuery dsExt query dryRun))
  = strings.HasPrefix query "#legacySQL"
  /\ (bigquery.UseLegacySQL (bigquery.Config (bqext.ResultQuery dsExt query dryRun)) = true
      <-> beginsWith "#legacySQL" query)
  /\ (bigquery.UseLegacySQL (bigquery.Config (bqext.ResultQuery dsExt query dryRun)) = false
      <-> ~ beginsWith "#legacySQL" query).
Proof.
  rewrite ResultQuery_flag, <- HasPrefix_beginsWith.
  split; [reflexivity|]. split; [reflexivity|].
  destruct (strings.HasPrefix query "#legacySQL"); split; intros H; easy.
Qed.

(** C5 on two literal texts: one that begins with the marker and one that
    only mentions it later. *)
Lemma ResultQuery_legacy_dialect_witness :
  bigquery.UseLegacySQL
    (bigquery.Config (bqext.ResultQuery sample.dataset "#legacySQL SELECT 1" false)) = true
  /\ bigquery.UseLegacySQL
       (bigquery.Config (bqext.ResultQuery sample.dataset "SELECT 1 -- #legacySQL" true)) = false.
Proof.
  split.
  - apply (ResultQuery_legacy_dialect sample.dataset "#legacySQL SELECT 1" false).
    exists " SELECT 1". reflexivity.
  - rewrite (proj1 (ResultQuery_legacy_dialect sample.dataset "SELECT 1 -- #legacySQL" true)).
    reflexivity.
Defined.

(** C6: the configuration DestinationQuery builds allows large results
    and disables flattening; without a destination it is a dry run with no
    destination table, and with a destination it has that table as its
    destination and is not a dry run. *)
Theorem DestinationQuery_settings (dsExt : bqext.Dataset) (query : string)
    (dest : option bigquery.Table) :
  let c := bigquery.Config (bqext.DestinationQuery dsExt query dest) in
  bigquery.AllowLargeResults c = true
  /\ bigquery.DisableFlattenedResults c = true
  /\ match dest with
     | None => bigquery.DryRun c = true /\ bigquery.Dst c = None
     | Some t => bigquery.Dst c = Some t /\ bigquery.DryRun c = false
     end.
Proof. destruct dest; cbn; auto. Qed.

(** ** Partition metadata *)

Lemma ResultQuery_text (dsExt : bqext.Dataset) (query : string) (dryRun : bool) :
  bigquery.Q (bigquery.Config (bqext.ResultQuery dsExt query dryRun)) = query.
Proof. unfold bqext.ResultQuery. destruct (strings.HasPrefix query "#legacySQL"); reflexivity. Qed.

Lemma append_assoc (a b c : string) : ((a ++ b) ++ c = a ++ b ++ c)%string.
Proof.
  induction a as [|x a IH]; [reflexivity|].
  change (String x ((a ++ b) ++ c) = String x (a ++ b ++ c))%string.
  rewrite IH. reflexivity.
Qed.

Lemma partitionTemplate_filled (table partition : string) :
  fmt.Sprintf bqext.partitionTemplate [table; partition]
  = (bqext.partitionSelect ++ "[" ++ table ++ "$__PARTITIONS_SUMMARY__]" ++ bqext.LF
     ++ bqext.TAB ++ bqext.TAB ++ "where partition_id = "
     ++ bqext.QUOTE ++ partition ++ bqext.QUOTE ++ " ")%string.
Proof. reflexivity. Qed.

(** The partition query is in the legacy dialect, reads the summary
    pseudo-table of the table asked about and filters on the partition id
    asked for. *)
Lemma partitionConfig_text (dsExt : bqext.Dataset) (table partition : string) :
  let c := partitionConfig dsExt table partition in
  bigquery.UseLegacySQL c = true
  /\ substring ("[" ++ table ++ "$__PARTITIONS_SUMMARY__]") (bigquery.Q c)
  /\ substring ("where partition_id = " ++ bqext.QUOTE ++ partition ++ bqext.QUOTE) (bigquery.Q c).
Proof.
  intros c. subst c. unfold partitionConfig. split; [|split].
  - rewrite ResultQuery_flag. reflexivity.
  - rewrite ResultQuery_text, partitionTemplate_filled.
    eexists bqext.partitionSelect, _. rewrite !append_assoc. reflexivity.
  - rewrite ResultQuery_text, partitionTemplate_filled.
    exists (bqext.partitionSelect ++ "[" ++ table ++ "$__PARTITIONS_SUMMARY__]" ++ bqext.LF
            ++ bqext.TAB ++ bqext.TAB)%string, " ".
    rewrite !append_assoc. reflexivity.
Qed.

(** GetPartitionInfo in terms of what QueryAndParse does to its local. *)
Lemma GetPartitionInfo_unfold (dsExt : bqext.Dataset) (table partition : string) (w : World) :
  bqext.GetPartitionInfo dsExt table partition w
  = let pi := fresh (dom (heap w)) in
    let w0 := setHeap (<[pi := bqext.toValue bqext.zeroPartitionInfo]> (heap w)) w in
    match bqext.QueryAndParse dsExt
            (fmt.Sprintf bqext.partitionTemplate [table; partition]) (VPtr (Some pi)) w0 with
    | (Returns (Some e), w1) =>
        (Returns (bqext.zeroPartitionInfo, Some e),
         {| heap := delete pi (heap w1); calls := calls w1;
            logged := logged w1 ++ [(errorText e ++ bqext.LF)%string] |})
    | (Returns None, w1) =>
        (Returns (bqext.ofValue (heap w1 !! pi), None), setHeap (delete pi (heap w1)) w1)
    | (Panics msg, w1) => (Panics msg, setHeap (delete pi (heap w1)) w1)
    end.
Proof.
  unfold bqext.GetPartitionInfo, withLocal, bind.
  destruct (bqext.QueryAndParse _ _ _ _) as [[[e|]|msg] w1]; reflexivity.
Qed.

(** C10: GetPartitionInfo always returns, and whenever it returns an
    error the PartitionInfo beside it is PartitionInfo{}: empty id, zero
    times. *)
Theorem GetPartitionInfo_error_zero (dsExt : bqext.Dataset) (table partition : string)
    (w : World) :
  exists (pi : bqext.PartitionInfo) (err : option error) (w' : World),
    bqext.GetPartitionInfo dsExt table partition w = (Returns (pi, err), w')
    /\ (err <> None -> pi = bqext.zeroPartitionInfo).
Proof.
  rewrite GetPartitionInfo_unfold. cbv zeta.
  rewrite QueryAndParse_validated.
  2:{ eexists _, _. split; [reflexivity|]. split; [apply lookup_insert_eq | reflexivity]. }
  destruct (bigquery.readAnswer _ _) as [it|err].
  - destruct (bigquery.next _ it _) as [[[e|] it1] h1].
    + eexists _, _, _. split; [reflexivity | reflexivity].
    + cbv zeta. destruct (isDone _).
      * eexists _, _, _. split; [reflexivity | congruence].
      * eexists _, _, _. split; [reflexivity | reflexivity].
  - eexists _, _, _. split; [reflexivity | reflexivity].
Qed.

(** C8: GetPartitionInfo puts the partition id between the quotes of the
    filter as it is.  Against a service that evaluates the filter of the query
    it is sent: for an id that no partition of the table has, and that closes
    the literal and goes on with OR and an equation that always holds, the
    filter reads partition_id = x OR 1 = 1, with x and each 1 between double
    quotes; it holds of every partition, and GetPartitionInfo returns the one
    partition the table has, under an id that is not the id asked for, with no
    error where iterator.Done was due.  Against the same service an id without
    quotes is found when the table has it and gives iterator.Done when not. *)
Theorem GetPartitionInfo_filter_spliced :
  (forall entry, In entry legacy.partitions -> fst entry <> legacy.spliced)
  /\ legacy.following "where "
       (bigquery.Q (partitionConfig legacy.dataset "mytable" legacy.spliced))
     = Some ("partition_id = " ++ bqext.QUOTE ++ "x" ++ bqext.QUOTE ++ " OR "
             ++ bqext.QUOTE ++ "1" ++ bqext.QUOTE ++ " = "
             ++ bqext.QUOTE ++ "1" ++ bqext.QUOTE ++ " ")%string
  /\ bigquery.readAnswer (bqext.BqClient legacy.dataset)
       (partitionConfig legacy.dataset "mytable" legacy.spliced)
     = inl [bigquery.Delivers (summaryRow "20230101" (5%Z, 7%Z))]
  /\ fst (bqext.GetPartitionInfo legacy.dataset "mytable" legacy.spliced sample.world)
     = Returns ({| bqext.PartitionID := "20230101"; bqext.CreationTime := 5;
                   bqext.LastModified := 7 |}, None)
  /\ "20230101" <> legacy.spliced
  /\ fst (bqext.GetPartitionInfo legacy.dataset "mytable" "20230101" sample.world)
     = Returns ({| bqext.PartitionID := "20230101"; bqext.CreationTime := 5;
                   bqext.LastModified := 7 |}, None)
  /\ fst (bqext.GetPartitionInfo legacy.dataset "mytable" "19700101" sample.world)
     = Returns (bqext.zeroPartitionInfo, Some iterator.Done).
Proof.
  split; [|split; [|split; [|split; [|split; [|split]]]]]; try (vm_compute; reflexivity).
  - intros entry [<- | []]. vm_compute. discriminate.
  - vm_compute. discriminate.
Qed.





(** C10 on the sample service: the partition 19700101 does not exist, the
    call fails, and the PartitionInfo beside the error is PartitionInfo{}. *)
Lemma GetPartitionInfo_error_zero_witness :
  exists (err : option error) (w' : World),
    bqext.GetPartitionInfo sample.dataset "mytable" "19700101" sample.world
    = (Returns (bqext.zeroPartitionInfo, err), w')
    /\ err <> None.
Proof.
  destruct (GetPartitionInfo_error_zero sample.dataset "mytable" "19700101" sample.world)
    as (pi & err & w' & Hcall & Hzero).
  assert (Herr : err <> None).
  { intros ->. vm_compute in Hcall. discriminate Hcall. }
  exists err, w'. rewrite <- (Hzero Herr). split; [exact Hcall | exact Herr].
Defined.

(** ** parseModel *)

Lemma store_value (row : gmap string Value) (f : bqutil.StructField) (v : Value) :
  bqutil.store row f = Returns v -> v = parsedField row f.
Proof.
  unfold bqutil.store, parsedField.
  destruct (row !! bqutil.Qfield f) as [x|]; cbn; [|congruence].
  destruct (negb (bqutil.IsExported f)); [discriminate|].
  destruct x; try discriminate;
    destruct (bqutil.assignable _ (bqutil.Type_ f)); congruence.
Qed.

Lemma store_panics (row : gmap string Value) (f : bqutil.StructField) :
  (exists msg, bqutil.store row f = Panics msg) <-> refusedBy row f.
Proof.
  unfold bqutil.store, refusedBy.
  destruct (row !! bqutil.Qfield f) as [x|].
  - destruct (bqutil.IsExported f) eqn:Hexp; cbn.
    + split.
      * intros [msg Hmsg]. exists x. split; [reflexivity|]. right.
        destruct x; first
          [ left; reflexivity
          | right; destruct (bqutil.assignable _ (bqutil.Type_ f)); [discriminate | reflexivity] ].
      * intros (v & [= <-] & [Hno | [-> | Hassign]]).
        -- discriminate.
        -- eexists. reflexivity.
        -- destruct x; try rewrite Hassign; eexists; reflexivity.
    + split; [|eexists; reflexivity]. intros _. exists x. auto.
  - split; [intros [msg Hmsg]; discriminate | intros (v & Hv & _); discriminate].
Qed.

Lemma fill_values (row : gmap string Value) (fields : list bqutil.StructField)
    (vs : list Value) :
  bqutil.fill row fields = Returns vs -> vs = map (parsedField row) fields.
Proof.
  revert vs. induction fields as [|f rest IH]; intros vs; cbn.
  - congruence.
  - destruct (bqutil.store row f) as [v|msg] eqn:Hstore; [|discriminate].
    destruct (bqutil.fill row rest) as [vs'|msg]; [|discriminate].
    intros [= <-]. rewrite (store_value _ _ _ Hstore), (IH vs' eq_refl). reflexivity.
Qed.

Lemma fill_panics (row : gmap string Value) (fields : list bqutil.StructField) :
  (exists msg, bqutil.fill row fields = Panics msg)
  <-> exists f, In f fields /\ refusedBy row f.
Proof.
  induction fields as [|f rest IH]; cbn.
  - split; [intros [msg Hmsg]; discriminate | intros (f & [] & _)].
  - destruct (bqutil.store row f) as [v|msg] eqn:Hstore.
    + assert (Hok : ~ refusedBy row f).
      { intros Hbad. apply store_panics in Hbad as [msg Hmsg]. congruence. }
      destruct (bqutil.fill row rest) as [vs|msg] eqn:Hfill.
      * split; [intros [msg Hmsg]; discriminate|].
        intros (g & [<- | Hin] & Hbad); [contradiction|].
        destruct (proj2 IH) as [msg Hmsg]; [eauto | discriminate].
      * split; [|eauto]. intros _.
        destruct (proj1 IH) as (g & Hin & Hbad); eauto.
    + split; [|eauto]. intros _. exists f. split; [auto|].
      apply store_panics. eauto.
Qed.

(** X2: when parseModel returns, it returns no error and a struct of the
    model's type whose every field holds the row's value under the field's
    qfield tag, or the zero value of the field's type when the row has no
    such column; the values the model held play no part. *)
Theorem parseModel_fields (row : gmap string Value) (type : list bqutil.StructField)
    (values : list Value) (result : bqutil.Model) (err : option error) :
  bqutil.parseModel row (bqutil.Struct type values) = Returns (result, err) ->
  err = None /\ result = bqutil.Struct type (map (parsedField row) type).
Proof.
  cbn. destruct (bqutil.fill row type) as [vs|msg] eqn:Hfill; [|discriminate].
  intros [= <- <-]. rewrite (fill_values _ _ _ Hfill). auto.
Qed.

(** X3: parseModel never reports a failure as an error.  It panics exactly
    when the model is nil, or is no struct, or has a field whose tag names a
    column of the row that cannot be stored in it (the field is unexported,
    the value is nil, or the value's type is not assignable to the field's);
    in every other case it returns with a nil error. *)
Theorem parseModel_panics_iff (row : gmap string Value) (model : bqutil.Model) :
  ((exists msg, bqutil.parseModel row model = Panics msg)
   <-> model = bqutil.Nil
       \/ (exists v, model = bqutil.Other v)
       \/ (exists type values f,
             model = bqutil.Struct type values /\ In f type /\ refusedBy row f))
  /\ ((exists result, bqutil.parseModel row model = Returns (result, None))
      \/ (exists msg, bqutil.parseModel row model = Panics msg)).
Proof.
  destruct model as [|type values|v]; cbn.
  - split; [|eauto]. split; eauto.
  - pose proof (fill_panics row type) as Hfill.
    destruct (bqutil.fill row type) as [vs|msg].
    + split; [|eauto]. split; [intros [msg Hmsg]; discriminate|].
      intros [Hnil | [[v Hv] | (t & vals & f & Heq & Hin & Hbad)]]; try discriminate.
      injection Heq as <- <-.
      destruct (proj2 Hfill) as [msg Hmsg]; [eauto | discriminate].
    + split; [|eauto]. split; [|eauto]. intros _. right. right.
      destruct (proj1 Hfill) as (f & Hin & Hbad); [eauto|].
      exists type, values, f. auto.
  - split; [|eauto]. split; eauto.
Qed.

(** X4: columns no field is tagged with are ignored, and so are the
    model's own values: two rows that agree on every tag of the struct type
    give the same outcome, panic or result, for any two models of that
    type. *)
Theorem parseModel_ignores_other_columns (row1 row2 : gmap string Value)
    (type : list bqutil.StructField) (values1 values2 : list Value) :
  (forall f, In f type -> row1 !! bqutil.Qfield f = row2 !! bqutil.Qfield f) ->
  bqutil.parseModel row1 (bqutil.Struct type values1)
  = bqutil.parseModel row2 (bqutil.Struct type values2).
Proof.
  intros Hagree. cbn.
  assert (Hfill : bqutil.fill row1 type = bqutil.fill row2 type).
  { induction type as [|f rest IH]; [reflexivity|]. cbn.
    assert (Hstore : bqutil.store row1 f = bqutil.store row2 f).
    { unfold bqutil.store. rewrite (Hagree f) by (left; reflexivity). reflexivity. }
    rewrite Hstore, IH; [reflexivity|]. intros g Hg. apply Hagree. right. exact Hg. }
  rewrite Hfill. reflexivity.
Qed.

(** X2 on a row with a column no field is tagged with and a field no column
    is tagged for. *)
Lemma parseModel_fields_witness :
  bqutil.parseModel (rowMap fixture.partitionRow) fixture.partitionModel
  = Returns (bqutil.Struct fixture.partitionType [VString "20230101"; VTime 5; VNil], None).
Proof.
  destruct (parseModel_fields (rowMap fixture.partitionRow) fixture.partitionType
              [VString "stale"; VTime 1; VInt 3]
              (bqutil.Struct fixture.partitionType [VString "20230101"; VTime 5; VNil]) None)
    as [_ _]; reflexivity.
Defined.

(** X4 on a row and what is left of it without the untagged column. *)
Lemma parseModel_ignores_other_columns_witness :
  bqutil.parseModel (rowMap fixture.partitionRow) fixture.partitionModel
  = bqutil.parseModel
      (rowMap [("partition_id", VString "20230101"); ("creation_time", VTime 5)])
      (bqutil.Struct fixture.partitionType []).
Proof.
  apply (parseModel_ignores_other_columns (rowMap fixture.partitionRow)
           (rowMap [("partition_id", VString "20230101"); ("creation_time", VTime 5)])
           fixture.partitionType [VString "stale"; VTime 1; VInt 3] []).
  intros f [<- | [<- | [<- | []]]]; reflexivity.
Defined.

(** ** The bqutil QueryAndParse, step by step *)

Lemma bqutil_ResultQuery_client (util : bqutil.TableUtil) (query : string) (dryRun : bool) :
  bigquery.client (bqutil.ResultQuery util query dryRun) = bqutil.BqClient util.
Proof. unfold bqutil.ResultQuery. destruct (strings.HasPrefix query "#legacySQL"); reflexivity. Qed.

#[local] Arguments bqutil.ResultQuery : simpl never.
#[local] Arguments bqutil.parseModel : simpl never.
#[local] Arguments asGoMap : simpl never.

Lemma bqutil_QueryAndParse_steps (util : bqutil.TableUtil) (q : string)
    (model : bqutil.Model) (w : World) :
  bqutil.QueryAndParse util q model w
  = let row := fresh (dom (heap w)) in
    match bigquery.readAnswer (bqutil.BqClient util) (utilConfig util q) with
    | inr err => (Returns (model, Some err), after w (heap w) [CallRead (utilConfig util q)])
    | inl [] =>
        (Returns (model, Some iterator.Done),
         after w (heap w) [CallRead (utilConfig util q); CallNext (VPtr (Some row))])
    | inl (bigquery.Breaks e :: _) =>
        (Returns (model, Some e),
         after w (heap w) [CallRead (utilConfig util q); CallNext (VPtr (Some row))])
    | inl (bigquery.Delivers r :: rest) =>
        match bqutil.parseModel (rowMap r) model with
        | Panics msg =>
            (Panics msg,
             after w (heap w) [CallRead (utilConfig util q); CallNext (VPtr (Some row))])
        | Returns (result, Some e) =>
            (Returns (model, Some e),
             after w (heap w) [CallRead (utilConfig util q); CallNext (VPtr (Some row))])
        | Returns (result, None) =>
            (Returns (if isDone (reported rest) then (result, None)
                      else (model, Some bqutil.multipleRows)),
             after w (heap w) [CallRead (utilConfig util q); CallNext (VPtr (Some row));
                               CallNext (VPtr (Some row))])
        end
    end.
Proof.
  unfold bqutil.QueryAndParse, bind, ret, Query_Read, record. cbn [heap calls logged].
  rewrite bqutil_ResultQuery_client. fold (utilConfig util q).
  destruct (bigquery.readAnswer (bqutil.BqClient util) (utilConfig util q)) as [it|err];
    [|reflexivity].
  pose proof (fresh_unused (heap w)) as Hrow.
  set (row := fresh (dom (heap w))) in *.
  unfold withLocal, RowIterator_Next, bind, record, ret, getHeap, liftResult, setHeap, after.
  cbn [heap calls logged]. fold row.
  unfold bigquery.next at 1, bigquery.destination. rewrite lookup_insert_eq.
  cbn [bigquery.loaderFor].
  destruct it as [|[r|e] rest]; cbn [fst snd heap calls logged].
  - rewrite delete_insert_id, <- app_assoc by exact Hrow. reflexivity.
  - rewrite insert_insert_eq, lookup_insert_eq.
    change (asGoMap (Some (VMap (Some (bigquery.mapLoad r None))))) with (rowMap r).
    destruct (bqutil.parseModel (rowMap r) model) as [[result [e|]]|msg]; cbn [heap calls logged].
    + rewrite delete_insert_id, <- app_assoc by exact Hrow. reflexivity.
    + pose proof (next_map_buffer row (Some (bigquery.mapLoad r None)) rest (heap w) Hrow) as Hbuf.
      pose proof (next_map_report row (Some (bigquery.mapLoad r None)) rest (heap w)) as Hrep.
      destruct (bigquery.next (VPtr (Some row)) rest _) as [[err it2] h2].
      cbn in Hbuf, Hrep. injection Hrep as -> ->.
      fold (reported rest).
      destruct (isDone (reported rest)); cbn;
        rewrite Hbuf, <- !app_assoc; reflexivity.
    + rewrite delete_insert_id, <- app_assoc by exact Hrow. reflexivity.
  - rewrite delete_insert_id, <- app_assoc by exact Hrow. reflexivity.
Qed.

Lemma parseModel_accepted (row : gmap string Value) (type : list bqutil.StructField)
    (values : list Value) :
  (forall f, In f type -> ~ refusedBy row f) ->
  bqutil.parseModel row (bqutil.Struct type values)
  = Returns (bqutil.Struct type (map (parsedField row) type), None).
Proof.
  intros Hok. unfold bqutil.parseModel.
  destruct (bqutil.fill row type) as [vs|msg] eqn:Hfill.
  - rewrite (fill_values _ _ _ Hfill). reflexivity.
  - destruct (proj1 (fill_panics row type)) as (f & Hin & Hbad); [eauto|].
    destruct (Hok f Hin Hbad).
Qed.

(** X5: whenever the bqutil QueryAndParse returns an error, the value
    beside it is the model it was given, as given, and the heap is as it was
    before the call. *)
Theorem bqutil_QueryAndParse_error_returns_model (util : bqutil.TableUtil) (q : string)
    (model m : bqutil.Model) (e : error) (w w' : World) :
  bqutil.QueryAndParse util q model w = (Returns (m, Some e), w') ->
  m = model /\ heap w' = heap w.
Proof.
  rewrite bqutil_QueryAndParse_steps. cbv zeta.
  destruct (bigquery.readAnswer _ _) as [[|[r|x] rest]|err].
  - intros [= <- _ <-]. auto.
  - destruct (bqutil.parseModel (rowMap r) model) as [[result [x|]]|msg].
    + intros [= <- _ <-]. auto.
    + destruct (isDone (reported rest)); intros [= ? ? <-]; subst; auto.
    + discriminate.
  - intros [= <- _ <-]. auto.
  - intros [= <- _ <-]. auto.
Qed.

(** X5 on a query the sample service answers with two rows. *)
Lemma bqutil_QueryAndParse_error_returns_model_witness :
  fst (bqutil.QueryAndParse fixture.util "two" fixture.partitionModel sample.world)
  = Returns (fixture.partitionModel, Some bqutil.multipleRows).
Proof.
  destruct (bqutil.QueryAndParse fixture.util "two" fixture.partitionModel sample.world)
    as [[[m [e|]]|msg] w'] eqn:Hcall; try (vm_compute in Hcall; discriminate Hcall).
  destruct (bqutil_QueryAndParse_error_returns_model fixture.util "two" fixture.partitionModel
              m e sample.world w' Hcall) as [-> _].
  vm_compute in Hcall. injection Hcall as <- _. reflexivity.
Defined.

(** X6: for a struct model and a query the service answers with cursor it:
    no row gives the model back beside iterator.Done; exactly one row none of
    whose columns a field refuses gives no error and the struct parsed from
    that row; a first row that parses followed by a second row gives the
    model back, not the parsed struct, beside the multiple-rows error,
    whatever the second row holds.  The heap is as before in every case. *)
Theorem bqutil_QueryAndParse_row_count (util : bqutil.TableUtil) (q : string)
    (type : list bqutil.StructField) (values : list Value) (w : World)
    (it : bigquery.RowIterator) :
  bigquery.readAnswer (bqutil.BqClient util) (utilConfig util q) = inl it ->
  let model := bqutil.Struct type values in
  let outcome := bqutil.QueryAndParse util q model w in
  (it = [] -> fst outcome = Returns (model, Some iterator.Done))
  /\ (forall r, it = [bigquery.Delivers r] ->
      (forall f, In f type -> ~ refusedBy (rowMap r) f) ->
      fst outcome
      = Returns (bqutil.Struct type (map (parsedField (rowMap r)) type), None))
  /\ (forall r1 r2 rest, it = bigquery.Delivers r1 :: bigquery.Delivers r2 :: rest ->
      (forall f, In f type -> ~ refusedBy (rowMap r1) f) ->
      fst outcome = Returns (model, Some bqutil.multipleRows))
  /\ heap (snd outcome) = heap w.
Proof.
  intros Hread model outcome. subst outcome.
  rewrite bqutil_QueryAndParse_steps. cbv zeta. rewrite Hread.
  split; [|split; [|split]].
  - intros ->. reflexivity.
  - intros r -> Hok. subst model. rewrite (parseModel_accepted _ _ _ Hok). reflexivity.
  - intros r1 r2 rest -> Hok. subst model. rewrite (parseModel_accepted _ _ _ Hok). reflexivity.
  - destruct it as [|[r|e] rest]; try reflexivity.
    destruct (bqutil.parseModel (rowMap r) model) as [[result [e|]]|msg]; reflexivity.
Qed.

(** X6 on a query the sample service answers with one row. *)
Lemma bqutil_QueryAndParse_row_count_witness :
  fst (bqutil.QueryAndParse fixture.util "one" fixture.partitionModel sample.world)
  = Returns (bqutil.Struct fixture.partitionType [VString "20230101"; VTime 5; VNil], None).
Proof.
  destruct (bqutil_QueryAndParse_row_count fixture.util "one" fixture.partitionType
              [VString "stale"; VTime 1; VInt 3] sample.world
              [bigquery.Delivers fixture.partitionRow] eq_refl) as (_ & Hone & _).
  apply (Hone fixture.partitionRow eq_refl).
  intros f [<- | [<- | [<- | []]]] (v & Hv & Hbad); vm_compute in Hv;
    try discriminate Hv; injection Hv as <-;
    destruct Hbad as [Hbad | [Hbad | Hbad]]; discriminate Hbad.
Defined.

(** X7: the bqutil QueryAndParse does not look at its model before it has
    asked the service.  With a model that is nil or no struct, a failed read,
    an empty cursor or a broken first fetch still return the model beside the
    error; only when a first row arrives does the call panic, and by then
    Read and one Next have been made. *)
Theorem bqutil_QueryAndParse_unchecked_model (util : bqutil.TableUtil) (q : string)
    (model : bqutil.Model) (w : World) :
  model = bqutil.Nil \/ (exists v, model = bqutil.Other v) ->
  let outcome := bqutil.QueryAndParse util q model w in
  match bigquery.readAnswer (bqutil.BqClient util) (utilConfig util q) with
  | inr err => fst outcome = Returns (model, Some err)
  | inl [] => fst outcome = Returns (model, Some iterator.Done)
  | inl (bigquery.Breaks e :: _) => fst outcome = Returns (model, Some e)
  | inl (bigquery.Delivers _ :: _) =>
      (exists msg, fst outcome = Panics msg)
      /\ calls (snd outcome)
         = calls w ++ [CallRead (utilConfig util q);
                       CallNext (VPtr (Some (fresh (dom (heap w)))))]
  end.
Proof.
  intros Hmodel outcome. subst outcome.
  rewrite bqutil_QueryAndParse_steps. cbv zeta.
  destruct (bigquery.readAnswer _ _) as [[|[r|x] rest]|err]; try reflexivity.
  assert (Hpanic : exists msg, bqutil.parseModel (rowMap r) model = Panics msg).
  { destruct Hmodel as [-> | [v ->]]; eexists; reflexivity. }
  destruct Hpanic as [msg ->]. split; [eauto | reflexivity].
Qed.

(** X7 on the nil model and a query answered with one row. *)
Lemma bqutil_QueryAndParse_unchecked_model_witness :
  (exists msg, fst (bqutil.QueryAndParse fixture.util "one" bqutil.Nil sample.world) = Panics msg)
  /\ fst (bqutil.QueryAndParse fixture.util "none" bqutil.Nil sample.world)
     = Returns (bqutil.Nil, Some iterator.Done).
Proof.
  split.
  - apply (bqutil_QueryAndParse_unchecked_model fixture.util "one" bqutil.Nil sample.world).
    left. reflexivity.
  - apply (bqutil_QueryAndParse_unchecked_model fixture.util "none" bqutil.Nil sample.world).
    left. reflexivity.
Defined.

(** ** What the bqext QueryAndParse touches *)

Lemma pointsToStruct_dec (h : gmap loc Value) (v : Value) :
  pointsToStruct h v \/ ~ pointsToStruct h v.
Proof.
  destruct v as [| | | | | | |[p|]];
    try (right; intros (p' & x & Hv & _); discriminate Hv).
  destruct (h !! p) as [x|] eqn:Hp.
  - destruct (reflect.kindOf x) eqn:Hk;
      try (right; intros (p' & x' & [= <-] & Hp' & Hk'); congruence).
    left. exists p, x. auto.
  - right. intros (p' & x' & [= <-] & Hp' & _). congruence.
Qed.

Lemma QueryAndParse_invalid (dsExt : bqext.Dataset) (q : string) (structPtr : Value)
    (w : World) :
  ~ pointsToStruct (heap w) structPtr ->
  snd (bqext.QueryAndParse dsExt q structPtr w) = w.
Proof.
  intros Hstruct.
  destruct structPtr as [| | | | | | |[p|]]; try reflexivity.
  unfold bqext.QueryAndParse, bind, typeKind, ret, getHeap. cbn.
  destruct (heap w !! p) as [v|] eqn:Hp; [|reflexivity].
  cbn. destruct (reflect.kindOf v) eqn:Hk; try reflexivity.
  exfalso. apply Hstruct. exists p, v. auto.
Qed.

(** A read writes nowhere but behind its destination. *)
Lemma next_frame (dst : Value) (it : bigquery.RowIterator) (h : gmap loc Value) (l : loc) :
  dst <> VPtr (Some l) ->
  snd (bigquery.next dst it h) !! l = h !! l.
Proof.
  intros Hl. unfold bigquery.next, bigquery.destination.
  destruct dst as [| | | | | | |[a|]]; try reflexivity.
  destruct (h !! a) as [pointee|]; [|reflexivity].
  destruct (bigquery.loaderFor pointee) as [load|]; [|reflexivity].
  destruct it as [|[r|e] rest]; try reflexivity.
  cbn. apply lookup_insert_ne. congruence.
Qed.

(** X8: QueryAndParse writes to the struct its target points to and to
    nothing else: every other location of the heap holds after the call what
    it held before, on every path, the panic included. *)
Theorem QueryAndParse_frame (dsExt : bqext.Dataset) (q : string) (structPtr : Value)
    (w : World) (l : loc) :
  structPtr <> VPtr (Some l) ->
  heap (snd (bqext.QueryAndParse dsExt q structPtr w)) !! l = heap w !! l.
Proof.
  intros Hl. destruct (pointsToStruct_dec (heap w) structPtr) as [Hptr | Hno].
  - rewrite (QueryAndParse_validated dsExt q _ w Hptr).
    destruct (bigquery.readAnswer _ _) as [it|err]; [|reflexivity].
    pose proof (next_frame structPtr it (heap w) l Hl) as Hframe.
    destruct (bigquery.next structPtr it (heap w)) as [[[e|] it1] h1]; exact Hframe.
  - rewrite (QueryAndParse_invalid dsExt q _ w Hno). reflexivity.
Qed.

(** X8 on the sample world: a second struct next to the target is left
    alone while the target is filled. *)
Lemma QueryAndParse_frame_witness :
  heap (snd (bqext.QueryAndParse sample.dataset "one" (VPtr (Some 2%positive))
               (setHeap (<[2%positive := VStruct sample.targetFields]> (heap sample.world))
                  sample.world))) !! sample.target
  = Some (VStruct sample.targetFields).
Proof.
  rewrite (QueryAndParse_frame sample.dataset "one" (VPtr (Some 2%positive)) _ sample.target).
  - reflexivity.
  - discriminate.
Defined.

(** X9: QueryAndParse only reads.  Whatever its arguments, it logs
    nothing, and the calls it makes to the service are at most three, each a
    Read or a Next: it never runs a job and never waits for one. *)
Theorem QueryAndParse_reads_only (dsExt : bqext.Dataset) (q : string) (structPtr : Value)
    (w : World) :
  logged (snd (bqext.QueryAndParse dsExt q structPtr w)) = logged w
  /\ exists made : list Call,
       calls (snd (bqext.QueryAndParse dsExt q structPtr w)) = calls w ++ made
       /\ forallb readsOnly made = true
       /\ (length made <= 3)%nat.
Proof.
  destruct (pointsToStruct_dec (heap w) structPtr) as [Hptr | Hno].
  - rewrite (QueryAndParse_validated dsExt q _ w Hptr).
    destruct (bigquery.readAnswer _ _) as [it|err].
    + destruct (bigquery.next structPtr it (heap w)) as [[[e|] it1] h1];
        (split; [reflexivity|]); eexists; (split; [reflexivity|]); cbn;
        (split; [reflexivity | lia]).
    + split; [reflexivity|]. eexists. split; [reflexivity|]. cbn. split; [reflexivity | lia].
  - rewrite (QueryAndParse_invalid dsExt q _ w Hno). split; [reflexivity|].
    exists []. rewrite app_nil_r. cbn. split; [reflexivity|]. split; [reflexivity | lia].
Qed.

(** X10: QueryAndParse fills the target before it knows the row is the
    only one.  For a cursor whose first fetch delivers a row that loads and
    whose second fetch is anything but the end, another row or a hard error
    alike, the call returns the multiple-rows error, and the target already
    holds the first row. *)
Theorem QueryAndParse_overwrites_before_failing (dsExt : bqext.Dataset) (q : string)
    (p : loc) (fields fields' : list (string * Value)) (w : World)
    (r : bigquery.Row) (rest : bigquery.RowIterator) :
  heap w !! p = Some (VStruct fields) ->
  bigquery.readAnswer (bqext.BqClient dsExt) (readConfig dsExt q)
  = inl (bigquery.Delivers r :: rest) ->
  bigquery.structLoad r fields = inl fields' ->
  reported rest <> Some iterator.Done ->
  fst (bqext.QueryAndParse dsExt q (VPtr (Some p)) w) = Returns (Some bqext.multipleRows)
  /\ heap (snd (bqext.QueryAndParse dsExt q (VPtr (Some p)) w)) !! p = Some (VStruct fields').
Proof.
  intros Hp Hread Hload Hmore.
  assert (Hptr : pointsToStruct (heap w) (VPtr (Some p))) by (exists p, (VStruct fields); auto).
  rewrite (QueryAndParse_validated dsExt q _ w Hptr), Hread.
  apply structLoad_inl in Hload.
  rewrite (next_struct p fields _ (heap w) Hp), Hload. cbn [fst snd]. cbv zeta.
  rewrite next_map_report. fold (reported rest). cbn [fst snd after heap].
  split; [|apply lookup_insert_eq].
  unfold iterator.Done in Hmore.
  destruct (reported rest) as [[text| |code text]|]; cbn; congruence.
Qed.

(** X10 on a cursor that breaks after its only row. *)
Lemma QueryAndParse_overwrites_before_failing_witness :
  fst (bqext.QueryAndParse fixture.dataset "flaky" (VPtr (Some sample.target)) sample.world)
  = Returns (Some bqext.multipleRows)
  /\ heap (snd (bqext.QueryAndParse fixture.dataset "flaky" (VPtr (Some sample.target))
                  sample.world)) !! sample.target
     = Some (VStruct sample.oneRow).
Proof.
  apply (QueryAndParse_overwrites_before_failing fixture.dataset "flaky" sample.target
           sample.targetFields sample.oneRow sample.world sample.oneRow
           [bigquery.Breaks (apiError 503 "backend unavailable")]);
    try reflexivity.
  discriminate.
Defined.

(** X11: what goes wrong before a first row arrives is returned as it
    is, with the heap untouched.  A failed Read returns the error of Read
    after that one call; a first fetch that breaks returns the error of the
    fetch after Read and one Next. *)
Theorem QueryAndParse_early_errors_verbatim (dsExt : bqext.Dataset) (q : string)
    (structPtr : Value) (w : World) :
  pointsToStruct (heap w) structPtr ->
  (forall err,
     bigquery.readAnswer (bqext.BqClient dsExt) (readConfig dsExt q) = inr err ->
     bqext.QueryAndParse dsExt q structPtr w
     = (Returns (Some err), after w (heap w) [CallRead (readConfig dsExt q)]))
  /\ (forall e rest,
       bigquery.readAnswer (bqext.BqClient dsExt) (readConfig dsExt q)
       = inl (bigquery.Breaks e :: rest) ->
       bqext.QueryAndParse dsExt q structPtr w
       = (Returns (Some e),
          after w (heap w) [CallRead (readConfig dsExt q); CallNext structPtr])).
Proof.
  intros Hptr. rewrite (QueryAndParse_validated dsExt q _ w Hptr). split.
  - intros err ->. reflexivity.
  - intros e rest ->.
    destruct Hptr as (p & x & -> & Hp & Hk).
    unfold bigquery.next, bigquery.destination. rewrite Hp.
    destruct x; try discriminate Hk; reflexivity.
Qed.

(** X11 on a service that is down. *)
Lemma QueryAndParse_early_errors_verbatim_witness :
  bqext.QueryAndParse fixture.dataset "down" (VPtr (Some sample.target)) sample.world
  = (Returns (Some (apiError 503 "backend unavailable")),
     after sample.world (heap sample.world) [CallRead (readConfig fixture.dataset "down")]).
Proof.
  destruct (QueryAndParse_early_errors_verbatim fixture.dataset "down"
              (VPtr (Some sample.target)) sample.world) as [Hdown _].
  - exists sample.target, (VStruct sample.targetFields). repeat split.
  - apply Hdown. reflexivity.
Defined.



(** ** What Dedup submits and touches *)

Lemma dedupTemplate_filled (dedupOn src : string) :
  fmt.Sprintf bqext.dedupTemplate [dedupOn; src]
  = (dedupHead ++ ("PARTITION BY " ++ dedupOn ++ ")") ++ dedupMiddle
     ++ ("FROM `" ++ src ++ "`") ++ dedupTail)%string.
Proof.
  transitivity (dedupHead ++ "PARTITION BY " ++ dedupOn ++ ")" ++ dedupMiddle
                ++ "FROM `" ++ src ++ "`" ++ dedupTail)%string.
  - reflexivity.
  - rewrite !append_assoc. reflexivity.
Qed.

(** X12: what Dedup runs.  For a destination with the partition
    qualifier, the configuration of the Run call writes to exactly the table
    named by project, dataset and table, is neither a dry run nor in the
    legacy dialect, allows large results without flattening, resolves
    unqualified names against the handle's own project and dataset, and its
    text partitions by dedupOn over the rows of src. *)
Theorem Dedup_submitted_configuration (dsExt : bqext.Dataset) (src dedupOn : string)
    (overwrite : bool) (project dataset table : string) (w : World) :
  substring "$" table ->
  exists (cfg : bigquery.QueryConfig) (rest : list Call),
    calls (snd (bqext.Dedup dsExt src dedupOn overwrite project dataset table w))
    = calls w ++ CallRun cfg :: rest
    /\ bigquery.Dst cfg
       = Some {| bigquery.TableProjectID := project; bigquery.TableDatasetID := dataset;
                 bigquery.TableID := table |}
    /\ bigquery.DryRun cfg = false
    /\ bigquery.UseLegacySQL cfg = false
    /\ bigquery.AllowLargeResults cfg = true
    /\ bigquery.DisableFlattenedResults cfg = true
    /\ bigquery.DefaultProjectID cfg = bigquery.ProjectID (bqext.BqDataset dsExt)
    /\ bigquery.DefaultDatasetID cfg = bigquery.DatasetID (bqext.BqDataset dsExt)
    /\ substring ("PARTITION BY " ++ dedupOn ++ ")") (bigquery.Q cfg)
    /\ substring ("FROM `" ++ src ++ "`") (bigquery.Q cfg).
Proof.
  intros Hyes. apply Contains_substring in Hyes.
  exists (dedupConfig dsExt src dedupOn overwrite project dataset table).
  rewrite Dedup_submitted by exact Hyes.
  assert (Htext : bigquery.Q (dedupConfig dsExt src dedupOn overwrite project dataset table)
                  = fmt.Sprintf bqext.dedupTemplate [dedupOn; src])
    by (unfold dedupConfig; destruct overwrite; reflexivity).
  rewrite Htext, dedupTemplate_filled.
  assert (Hcalls : exists rest : list Call,
             calls (snd (match bigquery.runAnswer (bqext.BqClient dsExt)
                                 (dedupConfig dsExt src dedupOn overwrite project dataset table)
                         with
                         | inl job =>
                             (Returns (bigquery.waitAnswer (bqext.BqClient dsExt) job),
                              {| heap := heap w;
                                 calls := calls w
                                          ++ [CallRun (dedupConfig dsExt src dedupOn overwrite
                                                         project dataset table);
                                              CallWait job];
                                 logged := logged w
                                           ++ [dedupAnnouncement dedupOn table;
                                               ("JobID: " ++ bigquery.ID job ++ bqext.LF)%string] |})
                         | inr err =>
                             (Returns (None, Some err),
                              {| heap := heap w;
                                 calls := calls w
                                          ++ [CallRun (dedupConfig dsExt src dedupOn overwrite
                                                         project dataset table)];
                                 logged := logged w ++ [dedupAnnouncement dedupOn table] |})
                         end))
             = calls w ++ CallRun (dedupConfig dsExt src dedupOn overwrite project dataset table)
                          :: rest).
  { destruct (bigquery.runAnswer _ _) as [job|err]; cbn [snd calls]; eexists; reflexivity. }
  destruct Hcalls as [rest Hrest]. exists rest. split; [exact Hrest|].
  unfold dedupConfig.
  repeat (split; [destruct overwrite; reflexivity|]).
  split.
  - exists dedupHead, (dedupMiddle ++ ("FROM `" ++ src ++ "`") ++ dedupTail)%string.
    reflexivity.
  - exists (dedupHead ++ ("PARTITION BY " ++ dedupOn ++ ")") ++ dedupMiddle)%string, dedupTail.
    rewrite !append_assoc. reflexivity.
Qed.

(** X12 on the sample handle, whose service refuses every run. *)
Lemma Dedup_submitted_configuration_witness :
  exists (cfg : bigquery.QueryConfig) (rest : list Call),
    calls (snd (bqext.Dedup fixture.dataset "src" "id" false "other" "out" "t$20230101"
                  sample.world))
    = calls sample.world ++ CallRun cfg :: rest
    /\ bigquery.DryRun cfg = false.
Proof.
  destruct (Dedup_submitted_configuration fixture.dataset "src" "id" false "other" "out"
              "t$20230101" sample.world) as (cfg & rest & Hcalls & _ & Hdry & _).
  - exists "t", "20230101". reflexivity.
  - exists cfg, rest. split; [exact Hcalls | exact Hdry].
Defined.

(** X13: what a Dedup that returns has done.  The heap is as before; the
    calls made to the service are at most two, none of them a Read or a Next;
    the status is nil exactly when the error is not; and when no Wait was
    among the calls, the status is nil and the error is not. *)
Theorem Dedup_effects (dsExt : bqext.Dataset) (src dedupOn : string)
    (overwrite : bool) (project dataset table : string) (w w' : World)
    (status : option bigquery.JobStatus) (err : option error) :
  bqext.Dedup dsExt src dedupOn overwrite project dataset table w
  = (Returns (status, err), w') ->
  heap w' = heap w
  /\ (status = None <-> err <> None)
  /\ (exists made : list Call,
        calls w' = calls w ++ made
        /\ forallb (fun c => negb (readsOnly c)) made = true
        /\ (length made <= 2)%nat
        /\ (forallb (fun c => match c with CallWait _ => false | _ => true end) made = true ->
            status = None /\ err <> None)).
Proof.
  destruct (strings.Contains table "$") eqn:Hqualified.
  - rewrite Dedup_submitted by exact Hqualified.
    destruct (bigquery.runAnswer _ _) as [job|e].
    + unfold bigquery.waitAnswer.
      destruct (bigquery.waitResult (bqext.BqClient dsExt) job) as [jobErr|e];
        intros [= <- <- <-]; cbn [heap calls].
      * split; [reflexivity|]. split; [split; intros H; [discriminate | now destruct H]|].
        eexists. split; [reflexivity|]. cbn.
        split; [reflexivity|]. split; [lia|]. intros Hnowait. discriminate Hnowait.
      * split; [reflexivity|]. split; [split; intros H; [discriminate | reflexivity]|].
        eexists. split; [reflexivity|]. cbn.
        split; [reflexivity|]. split; [lia|]. intros Hnowait. discriminate Hnowait.
    + intros [= <- <- <-]; cbn [heap calls].
      split; [reflexivity|]. split; [split; intros H; [discriminate | reflexivity]|].
      eexists. split; [reflexivity|]. cbn.
      split; [reflexivity|]. split; [lia|]. intros _. split; [reflexivity | discriminate].
  - rewrite Dedup_refused by exact Hqualified. intros [= <- <- <-].
    split; [reflexivity|]. split; [split; intros H; [discriminate | reflexivity]|].
    exists []. rewrite app_nil_r. cbn.
    split; [reflexivity|]. split; [reflexivity|]. split; [lia|].
    intros _. split; [reflexivity | discriminate].
Qed.

(** X13 on a job the service loses: two calls, and the heap as before. *)
Lemma Dedup_effects_witness :
  heap (snd (bqext.Dedup sample.lostDataset "src" "id" false "project" "dataset"
               "mytable$20230101" sample.world))
  = heap sample.world.
Proof.
  destruct (Dedup_effects sample.lostDataset "src" "id" false "project" "dataset"
              "mytable$20230101" sample.world
              (snd (bqext.Dedup sample.lostDataset "src" "id" false "project" "dataset"
                      "mytable$20230101" sample.world))
              None (Some sample.unavailable)) as [Hheap _].
  - vm_compute. reflexivity.
  - exact Hheap.
Defined.

(** ** What GetPartitionInfo touches *)

Lemma local_gone (h h1 : gmap loc Value) (a : loc) (v : Value) :
  h !! a = None ->
  (forall l, l <> a -> h1 !! l = (<[a := v]> h) !! l) ->
  delete a h1 = h.
Proof.
  intros Ha Hsame. apply map_eq. intros l.
  destruct (decide (l = a)) as [->|Hne].
  - rewrite lookup_delete_eq, Ha. reflexivity.
  - rewrite lookup_delete_ne by congruence. rewrite Hsame by exact Hne.
    apply lookup_insert_ne. congruence.
Qed.

(** X14: what a GetPartitionInfo that returns has done.  The heap is as
    it found it, the struct it parsed into being its own; the calls made are
    at most three, each a Read or a Next; and it wrote to the log exactly when
    it failed: one line, the text of the error it returns. *)
Theorem GetPartitionInfo_effects (dsExt : bqext.Dataset) (table partition : string)
    (w w' : World) (pi : bqext.PartitionInfo) (err : option error) :
  bqext.GetPartitionInfo dsExt table partition w = (Returns (pi, err), w') ->
  heap w' = heap w
  /\ (exists made : list Call,
        calls w' = calls w ++ made /\ forallb readsOnly made = true
        /\ (length made <= 3)%nat)
  /\ logged w'
     = logged w ++ match err with
                   | Some e => [(errorText e ++ bqext.LF)%string]
                   | None => []
                   end.
Proof.
  rename pi into info.
  rewrite GetPartitionInfo_unfold. cbv zeta.
  pose proof (fresh_unused (heap w)) as Hfresh.
  set (pi := fresh (dom (heap w))) in *.
  set (zero := bqext.toValue bqext.zeroPartitionInfo).
  rewrite QueryAndParse_validated.
  2:{ exists pi, zero. split; [reflexivity|]. split; [apply lookup_insert_eq | reflexivity]. }
  unfold setHeap, after. cbn [heap calls logged].
  assert (Hsame : delete pi (<[pi := zero]> (heap w)) = heap w)
    by (apply delete_insert_id; exact Hfresh).
  destruct (bigquery.readAnswer _ _) as [it|e].
  - pose proof (fun l (Hl : l <> pi) =>
                  next_frame (VPtr (Some pi)) it (<[pi := zero]> (heap w)) l
                    (fun H => Hl (eq_sym (f_equal (fun v => match v with
                                                            | VPtr (Some a) => a
                                                            | _ => pi
                                                            end) H)))) as Hframe.
    destruct (bigquery.next (VPtr (Some pi)) it (<[pi := zero]> (heap w)))
      as [[[e|] it1] h1]; cbn [snd] in Hframe.
    + intros [= <- <- <-]. cbn [heap calls logged].
      split; [apply (local_gone _ _ _ zero Hfresh Hframe)|].
      split; [|reflexivity].
      eexists. split; [reflexivity|]. cbn. split; [reflexivity | lia].
    + cbv zeta. destruct (isDone _).
      * intros [= <- <- <-]. cbn [heap calls logged].
        split; [apply (local_gone _ _ _ zero Hfresh Hframe)|].
        split; [|rewrite app_nil_r; reflexivity].
        eexists. split; [reflexivity|]. cbn. split; [reflexivity | lia].
      * intros [= <- <- <-]. cbn [heap calls logged].
        split; [apply (local_gone _ _ _ zero Hfresh Hframe)|].
        split; [|reflexivity].
        eexists. split; [reflexivity|]. cbn. split; [reflexivity | lia].
  - intros [= <- <- <-]. cbn [heap calls logged].
    split; [exact Hsame|]. split; [|reflexivity].
    eexists. split; [reflexivity|]. cbn. split; [reflexivity | lia].
Qed.

(** X14 on the sample service and a partition it does not have: one line
    in the log, the heap as before. *)
Lemma GetPartitionInfo_effects_witness :
  heap (snd (bqext.GetPartitionInfo sample.dataset "mytable" "19700101" sample.world))
  = heap sample.world
  /\ length (logged (snd (bqext.GetPartitionInfo sample.dataset "mytable" "19700101"
                            sample.world))) = 1%nat.
Proof.
  destruct (GetPartitionInfo_effects sample.dataset "mytable" "19700101" sample.world
              (snd (bqext.GetPartitionInfo sample.dataset "mytable" "19700101" sample.world))
              bqext.zeroPartitionInfo (Some iterator.Done)) as (Hheap & _ & Hlog).
  - vm_compute. reflexivity.
  - split; [exact Hheap|]. rewrite Hlog. reflexivity.
Defined.

(** ** The counting transport *)

Lemma wrap32_add (a b : Z) : bqfake.wrap32 (bqfake.wrap32 a + b) = bqfake.wrap32 (a + b).
Proof.
  unfold bqfake.wrap32. f_equal.
  replace ((a + 2 ^ 31) mod 2 ^ 32 - 2 ^ 31 + b + 2 ^ 31)%Z
    with ((a + 2 ^ 31) mod 2 ^ 32 + b)%Z by lia.
  replace (a + b + 2 ^ 31)%Z with ((a + 2 ^ 31) + b)%Z by lia.
  apply Zplus_mod_idemp_l.
Qed.

Lemma wrap32_small (n : Z) : (- 2 ^ 31 <= n < 2 ^ 31)%Z -> bqfake.wrap32 n = n.
Proof.
  intros Hn. unfold bqfake.wrap32. rewrite Z.mod_small by lia. lia.
Qed.

(** X15: the counting transport records every round trip.  From a
    transport whose counter is an int32, after the requests sent have gone
    through it one by one: every one of them was answered 200 with an empty
    body and no error; Requests is what it was followed by all the requests
    sent, in the order sent; and Count has grown by their number in int32
    arithmetic, so by exactly their number as long as that stays below
    2^31. *)
Theorem roundTrips_recorded (ct : bqfake.CountingTransport) (sent : list http.Request) :
  (- 2 ^ 31 <= bqfake.Count ct < 2 ^ 31)%Z ->
  fst (bqfake.roundTrips ct sent)
  = map (fun _ => ({| http.Status := EmptyString; http.StatusCode := http.StatusOK;
                      http.Body := EmptyString |}, None)) sent
  /\ bqfake.Requests (snd (bqfake.roundTrips ct sent)) = bqfake.Requests ct ++ sent
  /\ bqfake.Count (snd (bqfake.roundTrips ct sent))
     = bqfake.wrap32 (bqfake.Count ct + Z.of_nat (length sent))
  /\ ((bqfake.Count ct + Z.of_nat (length sent) < 2 ^ 31)%Z ->
      bqfake.Count (snd (bqfake.roundTrips ct sent))
      = (bqfake.Count ct + Z.of_nat (length sent))%Z).
Proof.
  unfold bqfake.Count, bqfake.Requests.
  assert (Hmain : forall ct,
             (- 2 ^ 31 <= bqfake.count ct < 2 ^ 31)%Z ->
             fst (bqfake.roundTrips ct sent)
             = map (fun _ => ({| http.Status := EmptyString; http.StatusCode := http.StatusOK;
                                 http.Body := EmptyString |}, None)) sent
             /\ bqfake.reqs (snd (bqfake.roundTrips ct sent)) = bqfake.reqs ct ++ sent
             /\ bqfake.count (snd (bqfake.roundTrips ct sent))
                = bqfake.wrap32 (bqfake.count ct + Z.of_nat (length sent))).
  { clear ct. induction sent as [|req rest IH]; intros ct Hrange.
    - cbn. rewrite app_nil_r, Z.add_0_r, wrap32_small by exact Hrange. auto.
    - cbn [bqfake.roundTrips]. unfold bqfake.RoundTrip. cbv zeta. cbn [bqfake.count bqfake.reqs].
      set (ct1 := {| bqfake.count := bqfake.wrap32 (bqfake.count ct + 1);
                     bqfake.reqs := bqfake.reqs ct ++ [req] |}).
      assert (Hrange1 : (- 2 ^ 31 <= bqfake.count ct1 < 2 ^ 31)%Z).
      { subst ct1. cbn [bqfake.count]. unfold bqfake.wrap32.
        pose proof (Z.mod_pos_bound (bqfake.count ct + 1 + 2 ^ 31) (2 ^ 32)). lia. }
      destruct (IH ct1 Hrange1) as (Hanswers & Hreqs & Hcount).
      destruct (bqfake.roundTrips ct1 rest) as [answers ct2]. cbn [fst snd] in *.
      split; [rewrite Hanswers; reflexivity|].
      split; [rewrite Hreqs; subst ct1; cbn; rewrite <- app_assoc; reflexivity|].
      rewrite Hcount. subst ct1. cbn [bqfake.count length].
      rewrite wrap32_add. f_equal. lia. }
  intros Hrange. destruct (Hmain ct Hrange) as (Hanswers & Hreqs & Hcount).
  repeat split; try assumption.
  intros Hroom. rewrite Hcount. apply wrap32_small. lia.
Qed.

(** X15 on a fresh transport and two requests. *)
Lemma roundTrips_recorded_witness :
  bqfake.Requests
    (snd (bqfake.roundTrips bqfake.newTransport [fixture.get "a"; fixture.get "b"]))
  = [fixture.get "a"; fixture.get "b"]
  /\ bqfake.Count
       (snd (bqfake.roundTrips bqfake.newTransport [fixture.get "a"; fixture.get "b"]))
     = 2%Z.
Proof.
  destruct (roundTrips_recorded bqfake.newTransport [fixture.get "a"; fixture.get "b"])
    as (_ & Hreqs & _ & Hcount).
  - cbn. lia.
  - split; [exact Hreqs | apply Hcount; cbn; lia].
Defined.

(** ** AltQueryAndParse against the bqext QueryAndParse *)

Lemma asDataset_config (util : bqutil.TableUtil) (q : string) :
  utilConfig util q = readConfig (asDataset util) q.
Proof.
  unfold utilConfig, readConfig, bqutil.ResultQuery, bqext.ResultQuery.
  destruct (strings.HasPrefix q "#legacySQL"); reflexivity.
Qed.

(** X16: on a model that points to a struct, AltQueryAndParse and the
    bqext QueryAndParse on the same client and dataset do the same thing:
    the same error or none, the same heap afterwards, the same calls to the
    service.  AltQueryAndParse returns beside the error the very pointer it
    was given, on success and on failure alike. *)
Theorem AltQueryAndParse_agrees (sprintln : gmap loc Value -> Value -> string)
    (util : bqutil.TableUtil) (q : string) (model : Value) (w : World) :
  pointsToStruct (heap w) model ->
  exists err : option error,
    fst (bqext.QueryAndParse (asDataset util) q model w) = Returns err
    /\ fst (bqutil.AltQueryAndParse sprintln util q model w) = Returns (model, err)
    /\ heap (snd (bqutil.AltQueryAndParse sprintln util q model w))
       = heap (snd (bqext.QueryAndParse (asDataset util) q model w))
    /\ calls (snd (bqutil.AltQueryAndParse sprintln util q model w))
       = calls (snd (bqext.QueryAndParse (asDataset util) q model w)).
Proof.
  intros Hptr. rewrite (QueryAndParse_validated (asDataset util) q _ w Hptr).
  rewrite <- asDataset_config.
  unfold bqutil.AltQueryAndParse, bind, ret, Query_Read, record. cbn [heap calls logged].
  rewrite bqutil_ResultQuery_client. fold (utilConfig util q). cbn [asDataset bqext.BqClient].
  destruct (bigquery.readAnswer (bqutil.BqClient util) (utilConfig util q)) as [it|e].
  2:{ exists (Some e). repeat split. }
  unfold RowIterator_Next, bind, record, ret, getHeap, log.Println, setHeap.
  cbn [heap calls logged].
  destruct Hptr as (p & x & -> & Hp & Hk).
  destruct (bigquery.next (VPtr (Some p)) it (heap w)) as [[[e|] it1] h1] eqn:Hnext;
    cbn [heap calls logged reflect.ValueOf bqutil.valueElem ret].
  - exists (Some e). cbn. rewrite <- app_assoc. repeat split.
  - unfold withLocal, bind, setHeap, after. cbn [heap calls logged].
    pose proof (next_map_buffer (fresh (dom h1)) None it1 h1 (fresh_unused h1)) as Hbuf.
    destruct (bigquery.next (VPtr (Some (fresh (dom h1)))) it1
                (<[fresh (dom h1) := VMap None]> h1)) as [[err it2] h2].
    cbn in Hbuf. cbn [fst snd].
    destruct (isDone err); cbn; eexists; rewrite Hbuf, <- !app_assoc; repeat split.
Qed.

(** X16 with the sample printer, on a query answered with two rows. *)
Lemma AltQueryAndParse_agrees_witness :
  fst (bqutil.AltQueryAndParse fixture.sprintln fixture.util "two"
         (VPtr (Some sample.target)) sample.world)
  = Returns (VPtr (Some sample.target), Some bqext.multipleRows).
Proof.
  destruct (AltQueryAndParse_agrees fixture.sprintln fixture.util "two"
              (VPtr (Some sample.target)) sample.world) as (err & Href & Halt & _).
  - exists sample.target, (VStruct sample.targetFields). repeat split.
  - rewrite Halt. vm_compute in Href. injection Href as <-. reflexivity.
Defined.

(** X17: AltQueryAndParse looks behind its model only after it has asked
    the service.  With a model that is neither nil nor a pointer (a struct
    passed by value, say), a failed Read returns the model beside the error
    of Read; once Read has succeeded the call panics in Value.Elem, after Read
    and one Next and with the heap as before, so the error Next gave for the
    destination is never returned. *)
Theorem AltQueryAndParse_unchecked_model (sprintln : gmap loc Value -> Value -> string)
    (util : bqutil.TableUtil) (q : string) (model : Value) (w : World) :
  model <> VNil ->
  (forall p, model <> VPtr p) ->
  match bigquery.readAnswer (bqutil.BqClient util) (utilConfig util q) with
  | inr err =>
      fst (bqutil.AltQueryAndParse sprintln util q model w) = Returns (model, Some err)
  | inl it =>
      (exists msg, fst (bqutil.AltQueryAndParse sprintln util q model w) = Panics msg)
      /\ calls (snd (bqutil.AltQueryAndParse sprintln util q model w))
         = calls w ++ [CallRead (utilConfig util q); CallNext model]
      /\ heap (snd (bqutil.AltQueryAndParse sprintln util q model w)) = heap w
  end.
Proof.
  intros Hnonnil Hnoptr.
  unfold bqutil.AltQueryAndParse, bind, ret, Query_Read, record. cbn [heap calls logged].
  rewrite bqutil_ResultQuery_client. fold (utilConfig util q).
  destruct (bigquery.readAnswer (bqutil.BqClient util) (utilConfig util q)) as [it|e];
    [|reflexivity].
  unfold RowIterator_Next, bind, record, ret, getHeap, log.Println, setHeap.
  cbn [heap calls logged].
  assert (Hnext : bigquery.next model it (heap w) = (Some bigquery.badDestination, it, heap w)).
  { unfold bigquery.next, bigquery.destination.
    destruct model as [| | | | | | |p]; try reflexivity. destruct (Hnoptr p eq_refl). }
  rewrite Hnext. cbn [heap calls logged].
  destruct model as [| | | | | | |p];
    try (destruct (Hnoptr p eq_refl)); try (destruct (Hnonnil eq_refl));
    cbn; rewrite <- app_assoc; (split; [eexists; reflexivity|]); split; reflexivity.
Qed.

(** X17 on a struct passed by value. *)
Lemma AltQueryAndParse_unchecked_model_witness :
  exists msg,
    fst (bqutil.AltQueryAndParse fixture.sprintln fixture.util "one"
           (VStruct sample.targetFields) sample.world) = Panics msg.
Proof.
  apply (AltQueryAndParse_unchecked_model fixture.sprintln fixture.util "one"
           (VStruct sample.targetFields) sample.world).
  - discriminate.
  - intros p Hp. discriminate Hp.
Defined.
